(** * bytesep.callbacks.violin_piano_callbacks

    A shallow embedding of [get_violin_piano_callbacks] and of
    [EvaluationCallback.on_batch_end], the periodic evaluation callback of
    the violin/piano separation training loop, together with the
    properties of the callback that the specification states.

    The Python code is sequential glue around library calls.  The model
    keeps the control flow of the source and records every call that leaves
    the module (directory listing, audio loading, separation, logging, the
    statistics container) in a trace; what the libraries return is supplied
    by an environment, see [Externals]. *)

From Stdlib Require Import ZArith List String Ascii Bool Lia.
From Stdlib Require Import Permutation Sorted Orders Mergesort.
From Stdlib Require Import Floats.SpecFloat.
From ExtLib Require Import Structures.Monad.
Import ListNotations.
Import MonadNotation.

Local Open Scope string_scope.
Local Open Scope Z_scope.
Local Open Scope list_scope.
Local Open Scope monad_scope.

(* ===================================================================== *)
(** * The Python fragment used by the module *)
(* ===================================================================== *)

(** ** Exceptions and results *)

(** The exceptions the module raises itself ([AssertionError] from its two
    [assert] statements, [ZeroDivisionError] from [%], [OverflowError] and
    [ValueError] from [int]) and a catch-all for what a library call may
    raise. *)
Inductive Exception : Type :=
| AssertionError (msg : option string)
| ZeroDivisionError
| OverflowError
| ValueError
| IndexError
| LibraryError (what : string).

Inductive Result (A : Type) : Type :=
| Ok (value : A)
| Raise (exn : Exception).

Arguments Ok {A} value.
Arguments Raise {A} exn.

#[export] Instance Monad_Result : Monad Result :=
  {| ret := fun _ a => Ok a;
     bind := fun _ _ c k =>
       match c with
       | Ok a => k a
       | Raise e => Raise e
       end |}.

(** ** Numbers

    A YAML scalar number is a Python [int] (unbounded, [Z]) or a Python
    [float] (IEEE 754 binary64, the [spec_float] of the standard library at
    precision 53 and maximal exponent 1024). *)

Definition float64 : Type := spec_float.

Definition prec64 : Z := 53.
Definition emax64 : Z := 1024.

Inductive PyNum : Type :=
| PyInt (z : Z)
| PyFloat (f : float64).

(** [float(z)] as done by the mixed-mode arithmetic: correctly rounded to
    nearest even, [OverflowError] when the integer is out of range. *)
Definition float_of_int (z : Z) : Result float64 :=
  match binary_normalize prec64 emax64 z 0 false with
  | S754_infinity _ => Raise OverflowError
  | f => Ok f
  end.

(** [x * y] *)
Definition py_mul (x y : PyNum) : Result PyNum :=
  match x, y with
  | PyInt a, PyInt b => Ok (PyInt (a * b))
  | PyFloat a, PyInt b =>
      fb <- float_of_int b ;; ret (PyFloat (SFmul prec64 emax64 a fb))
  | PyInt a, PyFloat b =>
      fa <- float_of_int a ;; ret (PyFloat (SFmul prec64 emax64 fa b))
  | PyFloat a, PyFloat b => Ok (PyFloat (SFmul prec64 emax64 a b))
  end.

(** [int(x)]: the identity on an [int], truncation toward zero on a finite
    [float], [OverflowError] on an infinity and [ValueError] on a NaN. *)
Definition py_int (x : PyNum) : Result Z :=
  match x with
  | PyInt z => Ok z
  | PyFloat (S754_zero _) => Ok 0
  | PyFloat (S754_infinity _) => Raise OverflowError
  | PyFloat S754_nan => Raise ValueError
  | PyFloat (S754_finite s m e) => Ok (cond_Zopp s (Z.shiftl (Zpos m) e))
  end.

(** [a % b] on integers: the result has the sign of the divisor, which is
    the convention of [Z.modulo]; a zero divisor raises. *)
Definition py_mod (a b : Z) : Result Z :=
  if b =? 0 then Raise ZeroDivisionError else Ok (a mod b).

(** ** Paths

    [os.path.join] with two arguments, in its POSIX version
    ([posixpath.join]): an absolute second component replaces the first,
    otherwise the components are glued with exactly one separator. *)

Definition sep : ascii := "/"%char.

Definition startswith_sep (b : string) : bool :=
  match b with
  | String c _ => Ascii.eqb c sep
  | EmptyString => false
  end.

Fixpoint endswith_sep (path : string) : bool :=
  match path with
  | EmptyString => false
  | String c EmptyString => Ascii.eqb c sep
  | String _ rest => endswith_sep rest
  end.

Definition os_path_join (a b : string) : string :=
  if startswith_sep b then b
  else if (String.length a =? 0)%nat || endswith_sep a then (a ++ b)%string
  else (a ++ String sep b)%string.

(** ** Sorting file names

    A file name is the string of its bytes.  [sorted] on a list of [str]
    orders by code point, lexicographically; UTF-8 keeps that order on
    the bytes, where it is [String.leb].  The order is total and
    antisymmetric, so the sorted list does not depend on the algorithm
    (see [sorted_arrangement_unique]): the merge sort of the standard
    library stands for Python's. *)

Module NameOrder <: TotalLeBool.
Definition t : Type := string.
Definition leb : t -> t -> bool := String.leb.
Definition leb_total : forall a b : t, leb a b = true \/ leb b a = true :=
  String.leb_total.
End NameOrder.

Module NameSort := Sort NameOrder.

Definition sorted (names : list string) : list string := NameSort.sort names.

(** The order of the names, as a relation. *)
Definition name_le (a b : string) : Prop := String.leb a b = true.

(** ** Arrays

    A [numpy.ndarray] of samples: its shape and its buffer in row-major
    order.  [x[None, :]] puts a new leading axis of length one in front and
    shares the buffer. *)
Record ndarray : Type := mk_ndarray {
  shape : list nat;
  buffer : list float64
}.

Definition ndim (x : ndarray) : nat := List.length (shape x).

Definition new_leading_axis (x : ndarray) : ndarray :=
  {| shape := 1%nat :: shape x; buffer := buffer x |}.

(* ===================================================================== *)
(** * Objects of the training framework *)
(* ===================================================================== *)

(** A [torch.nn.Module] and a TensorBoard logger are only stored and handed
    on: they are object references. *)
Inductive nn_Module : Type := ModuleRef (address : positive).
Inductive TensorBoardLogger : Type := LoggerRef (address : positive).

(** [pl.Trainer], of which the callback reads [global_step]. *)
Record Trainer : Type := mk_Trainer {
  global_step : Z
}.

(** The YAML configuration, with the entries the module reads, typed as
    the module uses them: integers where the callback documents an [int],
    a number for [segment_seconds], names and paths as strings. *)
Module Cfg.
Record Train : Type := mk_Train {
  target_source_types : list string;
  channels : Z;
  sample_rate : Z;
  evaluate_step_frequency : Z;
  save_step_frequency : Z
}.
Record Test : Type := mk_Test {
  evaluation_audios_dir : string
}.
Record Evaluate : Type := mk_Evaluate {
  test : Test;
  batch_size : Z;
  segment_seconds : PyNum
}.
Record Configs : Type := mk_Configs {
  train : Train;
  evaluate : Evaluate
}.
End Cfg.

(** [bytesep.inference.Separator], [bytesep.utils.StatisticsContainer] and
    [bytesep.callbacks.base_callbacks.SaveCheckpointsCallback] are defined
    elsewhere in the package; the module constructs them and calls their
    methods.  An object is identified by the arguments of its constructor;
    what its methods do is part of the environment. *)
Module Separator.
Record t : Type := init {
  model : nn_Module;
  segment_samples : Z;
  batch_size : Z;
  device : string
}.
End Separator.

Module StatisticsContainer.
Record t : Type := init {
  statistics_path : string
}.
End StatisticsContainer.

Module SaveCheckpointsCallback.
Record t : Type := init {
  model : nn_Module;
  checkpoints_dir : string;
  save_step_frequency : Z
}.
End SaveCheckpointsCallback.

(** A Python [dict] with string keys, in insertion order. *)
Definition dict (V : Type) : Type := list (string * V).

(* ===================================================================== *)
(** * Calls that leave the module *)
(* ===================================================================== *)

(** The messages of [logging.info]; the format strings are kept as
    constructors, their arguments as fields. *)
Inductive LogRecord : Type :=
| LogStep (global_step : Z)          (* "--- Step {} ---" *)
| LogTotalPieces (pieces : nat)      (* "Total {} pieces for evaluation:" *)
| LogRule                            (* "-----------------------------" *)
| LogAvgSdr (avg : float64)          (* 'Avg SDR: {:.3f}' *)
| LogEvaluationTime.                 (* "Evlauation time: {:.3f}" *)

Inductive Event : Type :=
| Listdir (path : string)
| Load (path : string) (sr : Z) (mono : bool)
| Separate (separator : Separator.t) (input_dict : dict ndarray)
| Print (audio_name : string) (sdr : float64)
| LoggingInfo (record : LogRecord)
| Clock                              (* time.time() *)
| Append (container : StatisticsContainer.t)
         (steps : Z) (statistics : dict float64) (split : string)
| Dump (container : StatisticsContainer.t).

(** What the libraries and the other modules of the package answer.
    [rank] is [rank_zero_only.rank], the rank of the process in a
    distributed run. *)
Class Externals : Type := {
  rank : Z;
  read_yaml : string -> Result Cfg.Configs;
  os_listdir : string -> Result (list string);
  librosa_core_load : string -> Z -> bool -> Result ndarray;
  separator_separate : Separator.t -> dict ndarray -> Result ndarray;
  calculate_sdr : ndarray -> ndarray -> Result float64;
  np_mean : list float64 -> float64;
  statistics_container_append :
    StatisticsContainer.t -> Z -> dict float64 -> string -> Result unit;
  statistics_container_dump : StatisticsContainer.t -> Result unit
}.

(** A computation of the callback: the calls it made, in order, and its
    result.  The calls made before an exception stay in the trace. *)
Definition Run (A : Type) : Type := (list Event * Result A)%type.

Definition trace {A : Type} (r : Run A) : list Event := fst r.
Definition outcome {A : Type} (r : Run A) : Result A := snd r.

#[export] Instance Monad_Run : Monad Run :=
  {| ret := fun _ a => ([], Ok a);
     bind := fun _ _ c k =>
       match c with
       | (t1, Ok a) => let (t2, r) := k a in (t1 ++ t2, r)
       | (t1, Raise e) => (t1, Raise e)
       end |}.

(** A call to the outside: it is recorded, then it answers. *)
Definition call {A : Type} (e : Event) (answer : Result A) : Run A :=
  ([e], answer).

(** A computation without outside call. *)
Definition pure {A : Type} (r : Result A) : Run A := ([], r).

(** [assert cond, msg] *)
Definition py_assert (cond : bool) (msg : option string) : Result unit :=
  if cond then Ok tt else Raise (AssertionError msg).

(** [l[0]] *)
Definition first_item {A : Type} (l : list A) : Result A :=
  match l with
  | x :: _ => Ok x
  | [] => Raise IndexError
  end.

(** [rank_zero_only] of [pytorch_lightning.utilities]: the decorated
    function runs on the process of rank zero; on any other process the
    wrapper returns [None] without calling it. *)
Definition rank_zero_only {E : Externals} (fn : Run unit) : Run unit :=
  if rank =? 0 then fn else ret tt.

(** [for x in l: s = body(s, x)] *)
Fixpoint for_each {A S : Type} (l : list A) (body : S -> A -> Run S) (s : S)
  : Run S :=
  match l with
  | [] => ret s
  | x :: rest => s' <- body s x ;; for_each rest body s'
  end.

(* ===================================================================== *)
(** * The module *)
(* ===================================================================== *)

Module EvaluationCallback.

Record t : Type := mk {
  model : nn_Module;
  target_source_type : string;
  sample_rate : Z;
  mono : bool;
  segment_samples : Z;
  evaluate_step_frequency : Z;
  logger : TensorBoardLogger;
  statistics_container : StatisticsContainer.t;
  evaluation_audios_dir : string;
  separator : Separator.t
}.

(** [__init__]; [input_channels] is accepted and not stored. *)
Definition init (model : nn_Module) (input_channels : Z)
    (evaluation_audios_dir target_source_type : string)
    (sample_rate : Z) (mono : bool) (segment_samples batch_size : Z)
    (device : string) (evaluate_step_frequency : Z)
    (logger : TensorBoardLogger)
    (statistics_container : StatisticsContainer.t) : t :=
  {| model := model;
     target_source_type := target_source_type;
     sample_rate := sample_rate;
     mono := mono;
     segment_samples := segment_samples;
     evaluate_step_frequency := evaluate_step_frequency;
     logger := logger;
     statistics_container := statistics_container;
     evaluation_audios_dir := evaluation_audios_dir;
     separator := Separator.init model segment_samples batch_size device |}.

Section Methods.
Context {E : Externals}.

Definition mixture_audios_dir (self : t) : string :=
  os_path_join (evaluation_audios_dir self) "mixture".

Definition clean_audios_dir (self : t) : string :=
  os_path_join (evaluation_audios_dir self) (target_source_type self).

Definition logging_info (r : LogRecord) : Run unit :=
  call (LoggingInfo r) (Ok tt).

Definition time_time : Run unit := call Clock (Ok tt).

(** The body of the [for] loop of [on_batch_end]: one audio name, with
    the list [sdrs] built so far. *)
Definition evaluate_piece (self : t) (sdrs : list float64)
    (audio_name : string) : Run (list float64) :=
  let mixture_path := os_path_join (mixture_audios_dir self) audio_name in
  let clean_path := os_path_join (clean_audios_dir self) audio_name in
  mixture <- call (Load mixture_path (sample_rate self) (mono self))
               (librosa_core_load mixture_path (sample_rate self)
                  (mono self)) ;;
  clean <- call (Load clean_path (sample_rate self) (mono self))
             (librosa_core_load clean_path (sample_rate self)
                (mono self)) ;;
  let mixture :=
    if (ndim mixture =? 1)%nat then new_leading_axis mixture
    else mixture in
  let input_dict := [("waveform", mixture)] in
  sep_wav <- call (Separate (separator self) input_dict)
               (separator_separate (separator self) input_dict) ;;
  sdr <- pure (calculate_sdr clean sep_wav) ;;
  call (Print audio_name sdr) (Ok tt) ;;
  ret (sdrs ++ [sdr]).

(** The [for] loop, from [sdrs = []]. *)
Definition evaluate_pieces (self : t) (audio_names : list string)
  : Run (list float64) :=
  for_each audio_names (evaluate_piece self) [].

(** The block guarded by the test on [global_step]. *)
Definition evaluate (self : t) (global_step : Z) : Run unit :=
  listing <- call (Listdir (mixture_audios_dir self))
               (os_listdir (mixture_audios_dir self)) ;;
  let audio_names := sorted listing in
  let error_str :=
    ("Directory " ++ evaluation_audios_dir self
       ++ " does not contain audios for evaluation!")%string in
  pure (py_assert (0 <? List.length audio_names)%nat (Some error_str)) ;;
  logging_info (LogStep global_step) ;;
  logging_info (LogTotalPieces (List.length audio_names)) ;;
  time_time ;;
  sdrs <- evaluate_pieces self audio_names ;;
  logging_info LogRule ;;
  logging_info (LogAvgSdr (np_mean sdrs)) ;;
  time_time ;;
  logging_info LogEvaluationTime ;;
  let statistics := [("pesq", np_mean sdrs)] in
  call (Append (statistics_container self) global_step statistics "test")
    (statistics_container_append (statistics_container self)
       global_step statistics "test") ;;
  call (Dump (statistics_container self))
    (statistics_container_dump (statistics_container self)).

(** [on_batch_end], under its decorator. *)
Definition on_batch_end (self : t) (trainer : Trainer) : Run unit :=
  rank_zero_only (
    let global_step := global_step trainer in
    remainder <- pure (py_mod global_step
                         (evaluate_step_frequency self)) ;;
    if remainder =? 0 then evaluate self global_step else ret tt).

End Methods.

End EvaluationCallback.

Inductive Callback : Type :=
| SaveCheckpoints (callback : SaveCheckpointsCallback.t)
| Evaluation (callback : EvaluationCallback.t).

Section GetCallbacks.
Context {E : Externals}.

Definition get_violin_piano_callbacks
    (config_yaml dataset_dir workspace checkpoints_dir
       statistics_path : string)
    (logger : TensorBoardLogger) (model : nn_Module)
    (evaluate_device : string) : Result (list Callback) :=
  configs <- read_yaml config_yaml ;;
  let target_source_types :=
    Cfg.target_source_types (Cfg.train configs) in
  let input_channels := Cfg.channels (Cfg.train configs) in
  let mono := if input_channels =? 1 then true else false in
  let evaluation_audios_dir :=
    os_path_join workspace
      (Cfg.evaluation_audios_dir (Cfg.test (Cfg.evaluate configs))) in
  let sample_rate := Cfg.sample_rate (Cfg.train configs) in
  let evaluate_step_frequency :=
    Cfg.evaluate_step_frequency (Cfg.train configs) in
  let save_step_frequency :=
    Cfg.save_step_frequency (Cfg.train configs) in
  let test_batch_size := Cfg.batch_size (Cfg.evaluate configs) in
  let test_segment_seconds := Cfg.segment_seconds (Cfg.evaluate configs) in
  product <- py_mul test_segment_seconds (PyInt sample_rate) ;;
  test_segment_samples <- py_int product ;;
  py_assert (List.length target_source_types =? 1)%nat None ;;
  target_source_type <- first_item target_source_types ;;
  let save_checkpoints_callback :=
    SaveCheckpointsCallback.init model checkpoints_dir
      save_step_frequency in
  let statistics_container := StatisticsContainer.init statistics_path in
  let evaluate_test_callback :=
    EvaluationCallback.init model input_channels evaluation_audios_dir
      target_source_type sample_rate mono test_segment_samples
      test_batch_size evaluate_device evaluate_step_frequency logger
      statistics_container in
  let callbacks :=
    [SaveCheckpoints save_checkpoints_callback;
     Evaluation evaluate_test_callback] in
  ret callbacks.

End GetCallbacks.

(* ===================================================================== *)
(** * A small concrete environment *)
(* ===================================================================== *)

(** A run of the callback needs an environment.  This one has two pieces in
    the evaluation directory, listed in an order that is not sorted; an
    audio file is a one-sample array holding the length of its path, the
    separator returns the waveform it is given, the SDR is the first
    sample of the reference, and the mean is a left-to-right sum divided by
    the number of values. *)
Module Demo.

Definition configs : Cfg.Configs :=
  {| Cfg.train :=
       {| Cfg.target_source_types := ["violin"];
          Cfg.channels := 1;
          Cfg.sample_rate := 44100;
          Cfg.evaluate_step_frequency := 1000;
          Cfg.save_step_frequency := 5000 |};
     Cfg.evaluate :=
       {| Cfg.test :=
            {| Cfg.evaluation_audios_dir := "evaluation_audios/vp" |};
          Cfg.batch_size := 1;
          (* 30.0 *)
          Cfg.segment_seconds := PyFloat (S754_finite false 15 1) |} |}.

(** The same with two target source types. *)
Definition two_targets : Cfg.Configs :=
  {| Cfg.train :=
       {| Cfg.target_source_types := ["violin"; "piano"];
          Cfg.channels := Cfg.channels (Cfg.train configs);
          Cfg.sample_rate := Cfg.sample_rate (Cfg.train configs);
          Cfg.evaluate_step_frequency :=
            Cfg.evaluate_step_frequency (Cfg.train configs);
          Cfg.save_step_frequency :=
            Cfg.save_step_frequency (Cfg.train configs) |};
     Cfg.evaluate := Cfg.evaluate configs |}.

Definition float_of_nat (n : nat) : float64 :=
  binary_normalize prec64 emax64 (Z.of_nat n) 0 false.

Definition mean (l : list float64) : float64 :=
  SFdiv prec64 emax64
    (fold_left (SFadd prec64 emax64) l (S754_zero false))
    (float_of_nat (List.length l)).

Definition externals (process_rank : Z) (listing : Result (list string))
  : Externals :=
  {| rank := process_rank;
     read_yaml := fun path =>
       if String.eqb path "violin_piano.yaml" then Ok configs
       else if String.eqb path "two_targets.yaml" then Ok two_targets
       else Raise (LibraryError "FileNotFoundError");
     os_listdir := fun _ => listing;
     librosa_core_load := fun path _ _ =>
       Ok {| shape := [1%nat];
             buffer := [float_of_nat (String.length path)] |};
     separator_separate := fun _ input_dict =>
       match input_dict with
       | (_, waveform) :: _ => Ok waveform
       | [] => Raise (LibraryError "KeyError")
       end;
     calculate_sdr := fun ref _ =>
       match buffer ref with
       | x :: _ => Ok x
       | [] => Raise (LibraryError "ValueError")
       end;
     np_mean := mean;
     statistics_container_append := fun _ _ _ _ => Ok tt;
     statistics_container_dump := fun _ => Ok tt |}.

Definition model : nn_Module := ModuleRef 1.
Definition logger : TensorBoardLogger := LoggerRef 1.

Definition callback : EvaluationCallback.t :=
  EvaluationCallback.init model 1 "ws/evaluation_audios/vp" "violin"
    44100 true 1323000 1 "cuda" 1000 logger
    (StatisticsContainer.init "ws/statistics.pkl").

Definition listing : list string := ["b.wav"; "a.wav"].

(** The process of rank zero, with the two pieces in the directory. *)
Definition rank_zero : Externals := externals 0 (Ok listing).

(** Another process of the same distributed run. *)
Definition rank_one : Externals := externals 1 (Ok listing).


Definition at_step (n : Z) : Trainer := {| global_step := n |}.

(** The call of the training script, on the demonstration files. *)
Definition get_callbacks (config_yaml : string)
  : Result (list Callback) :=
  get_violin_piano_callbacks (E := rank_zero) config_yaml "datasets"
    "ws" "ws/checkpoints" "ws/statistics.pkl" logger model "cuda".

End Demo.

(* ===================================================================== *)
(** * Observations on a run *)
(* ===================================================================== *)

(** The statistics container is reached through its two methods only: what
    a run did to it is the sequence of its [Append] and [Dump] calls. *)
Definition is_container_call (e : Event) : bool :=
  match e with
  | Append _ _ _ _ | Dump _ => true
  | _ => false
  end.

Definition container_calls (t : list Event) : list Event :=
  filter is_container_call t.

Definition is_load (e : Event) : bool :=
  match e with
  | Load _ _ _ => true
  | _ => false
  end.

(** The audio files loaded, in order. *)
Definition loads (t : list Event) : list Event := filter is_load t.

(** The inputs handed to [Separator.separate], in order. *)
Definition separations (t : list Event)
  : list (Separator.t * dict ndarray) :=
  flat_map (fun e => match e with
                     | Separate s input_dict => [(s, input_dict)]
                     | _ => []
                     end) t.

(** The names evaluated with their SDR, as printed, in order. *)
Definition printed (t : list Event) : list (string * float64) :=
  flat_map (fun e => match e with
                     | Print audio_name sdr => [(audio_name, sdr)]
                     | _ => []
                     end) t.

(** The events of the [for] loop. *)
Definition is_piece_event (e : Event) : bool :=
  match e with
  | Load _ _ _ | Separate _ _ | Print _ _ => true
  | _ => false
  end.

(** The waveform handed to the separator: a one-dimensional mixture gets a
    leading channel axis. *)
Definition channels_first (mixture : ndarray) : ndarray :=
  if (ndim mixture =? 1)%nat then new_leading_axis mixture else mixture.

Section Expectations.
Context {E : Externals}.
Import EvaluationCallback.

(** The two files of a name: the mixture, then the clean target. *)
Definition loads_of_name (self : t) (audio_name : string) : list Event :=
  [Load (os_path_join (mixture_audios_dir self) audio_name)
     (sample_rate self) (mono self);
   Load (os_path_join (clean_audios_dir self) audio_name)
     (sample_rate self) (mono self)].

Definition expected_loads (self : t) (audio_names : list string)
  : list Event :=
  flat_map (loads_of_name self) audio_names.

(** [sdr] is the SDR of the piece [audio_name]: the separation of its
    mixture scored against its clean target. *)
Definition piece_sdr (self : t) (audio_name : string) (sdr : float64)
  : Prop :=
  exists mixture clean sep_wav,
    librosa_core_load (os_path_join (mixture_audios_dir self) audio_name)
      (sample_rate self) (mono self) = Ok mixture /\
    librosa_core_load (os_path_join (clean_audios_dir self) audio_name)
      (sample_rate self) (mono self) = Ok clean /\
    separator_separate (separator self)
      [("waveform", channels_first mixture)] = Ok sep_wav /\
    calculate_sdr clean sep_wav = Ok sdr.

(** [call_] is the call of [Separator.separate] for [audio_name]. *)
Definition piece_separation (self : t) (audio_name : string)
    (call_ : Separator.t * dict ndarray) : Prop :=
  exists mixture,
    librosa_core_load (os_path_join (mixture_audios_dir self) audio_name)
      (sample_rate self) (mono self) = Ok mixture /\
    call_ = (separator self, [("waveform", channels_first mixture)]).

(** The message of the assertion on the listing. *)
Definition error_str (self : t) : string :=
  ("Directory " ++ evaluation_audios_dir self
     ++ " does not contain audios for evaluation!")%string.

(** The calls of an evaluation before its loop, and after it up to the
    call of [append]. *)
Definition prologue (self : t) (global_step : Z) (pieces : nat)
  : list Event :=
  [Listdir (mixture_audios_dir self);
   LoggingInfo (LogStep global_step);
   LoggingInfo (LogTotalPieces pieces);
   Clock].

Definition epilogue (self : t) (global_step : Z) (sdrs : list float64)
  : list Event :=
  [LoggingInfo LogRule;
   LoggingInfo (LogAvgSdr (np_mean sdrs));
   Clock;
   LoggingInfo LogEvaluationTime;
   Append (statistics_container self) global_step
     [("pesq", np_mean sdrs)] "test"].

(** The run lists the mixture directory, the first step of an
    evaluation. *)
Definition performs_evaluation (self : t) (r : Run unit) : Prop :=
  In (Listdir (mixture_audios_dir self)) (trace r).

(** The wording of the specification for [on_batch_end]: the evaluation
    is performed exactly at the multiples of the frequency. *)
Definition evaluates_exactly_at_multiples (self : t) (trainer : Trainer)
  : Prop :=
  performs_evaluation self (on_batch_end self trainer) <->
  (evaluate_step_frequency self | global_step trainer).

End Expectations.

(** [int(test_segment_seconds * sample_rate)] for a configuration. *)
Definition segment_samples_of (configs : Cfg.Configs) : Result Z :=
  product <- py_mul (Cfg.segment_seconds (Cfg.evaluate configs))
               (PyInt (Cfg.sample_rate (Cfg.train configs))) ;;
  py_int product.

(** The two callbacks built from a configuration, once the number of
    segment samples and the target source type are known. *)
Definition save_checkpoints_callback_of (configs : Cfg.Configs)
    (checkpoints_dir : string) (model : nn_Module)
  : SaveCheckpointsCallback.t :=
  SaveCheckpointsCallback.init model checkpoints_dir
    (Cfg.save_step_frequency (Cfg.train configs)).

Definition evaluate_test_callback_of (configs : Cfg.Configs)
    (workspace statistics_path : string) (logger : TensorBoardLogger)
    (model : nn_Module) (evaluate_device : string)
    (test_segment_samples : Z) (target_source_type : string)
  : EvaluationCallback.t :=
  EvaluationCallback.init model (Cfg.channels (Cfg.train configs))
    (os_path_join workspace
       (Cfg.evaluation_audios_dir (Cfg.test (Cfg.evaluate configs))))
    target_source_type
    (Cfg.sample_rate (Cfg.train configs))
    (Cfg.channels (Cfg.train configs) =? 1)
    test_segment_samples
    (Cfg.batch_size (Cfg.evaluate configs))
    evaluate_device
    (Cfg.evaluate_step_frequency (Cfg.train configs))
    logger
    (StatisticsContainer.init statistics_path).

(** The same environment with another directory listing. *)
Definition with_listdir (E : Externals)
    (listdir : string -> Result (list string)) : Externals :=
  {| rank := rank;
     read_yaml := read_yaml;
     os_listdir := listdir;
     librosa_core_load := librosa_core_load;
     separator_separate := separator_separate;
     calculate_sdr := calculate_sdr;
     np_mean := np_mean;
     statistics_container_append := statistics_container_append;
     statistics_container_dump := statistics_container_dump |}.

(** What the call of the training script returns on the demonstration
    files. *)
Definition demo_returned_callbacks : list Callback :=
  [SaveCheckpoints
     (save_checkpoints_callback_of Demo.configs "ws/checkpoints"
        Demo.model);
   Evaluation
     (evaluate_test_callback_of Demo.configs "ws" "ws/statistics.pkl"
        Demo.logger Demo.model "cuda" 1323000 "violin")].

(* ===================================================================== *)
(** * Further observations and environments *)
(* ===================================================================== *)

(** The callback makes some call at the batch end of a step. *)
Definition evaluates_at {E : Externals} (self : EvaluationCallback.t)
    (step : Z) : bool :=
  match trace (EvaluationCallback.on_batch_end self
                 {| global_step := step |}) with
  | [] => false
  | _ :: _ => true
  end.

(** The number of steps among [0], ..., [n - 1] at whose batch end the
    callback makes some call. *)
Definition evaluations_before {E : Externals}
    (self : EvaluationCallback.t) (n : nat) : nat :=
  List.length (filter (evaluates_at self) (map Z.of_nat (seq 0 n))).

(** Scoring [audio_name] raises [exn]: one of its two loads, its
    separation or its SDR does. *)
Definition piece_raises {E : Externals} (self : EvaluationCallback.t)
    (audio_name : string) (exn : Exception) : Prop :=
  outcome (EvaluationCallback.evaluate_piece self [] audio_name)
  = Raise exn.

(** The calls made for [audio_name] until that exception. *)
Definition piece_calls {E : Externals} (self : EvaluationCallback.t)
    (audio_name : string) : list Event :=
  trace (EvaluationCallback.evaluate_piece self [] audio_name).



(** The same environment with other audio files, another statistics
    container or another configuration file. *)
Definition with_load (E : Externals)
    (load : string -> Z -> bool -> Result ndarray) : Externals :=
  {| rank := rank;
     read_yaml := read_yaml;
     os_listdir := os_listdir;
     librosa_core_load := load;
     separator_separate := separator_separate;
     calculate_sdr := calculate_sdr;
     np_mean := np_mean;
     statistics_container_append := statistics_container_append;
     statistics_container_dump := statistics_container_dump |}.

Definition with_container (E : Externals)
    (append :
       StatisticsContainer.t -> Z -> dict float64 -> string -> Result unit)
    (dump : StatisticsContainer.t -> Result unit) : Externals :=
  {| rank := rank;
     read_yaml := read_yaml;
     os_listdir := os_listdir;
     librosa_core_load := librosa_core_load;
     separator_separate := separator_separate;
     calculate_sdr := calculate_sdr;
     np_mean := np_mean;
     statistics_container_append := append;
     statistics_container_dump := dump |}.

Definition with_configs (E : Externals) (configs : Cfg.Configs)
  : Externals :=
  {| rank := rank;
     read_yaml := fun _ => Ok configs;
     os_listdir := os_listdir;
     librosa_core_load := librosa_core_load;
     separator_separate := separator_separate;
     calculate_sdr := calculate_sdr;
     np_mean := np_mean;
     statistics_container_append := statistics_container_append;
     statistics_container_dump := statistics_container_dump |}.

Module Variants.

(** The demonstration configuration with another segment length. *)
Definition with_segment_seconds (seconds : PyNum) : Cfg.Configs :=
  {| Cfg.train := Cfg.train Demo.configs;
     Cfg.evaluate :=
       {| Cfg.test := Cfg.test (Cfg.evaluate Demo.configs);
          Cfg.batch_size := Cfg.batch_size (Cfg.evaluate Demo.configs);
          Cfg.segment_seconds := seconds |} |}.

(** The demonstration configuration with another evaluation directory. *)
Definition with_evaluation_audios_dir (dir : string) : Cfg.Configs :=
  {| Cfg.train := Cfg.train Demo.configs;
     Cfg.evaluate :=
       {| Cfg.test := {| Cfg.evaluation_audios_dir := dir |};
          Cfg.batch_size := Cfg.batch_size (Cfg.evaluate Demo.configs);
          Cfg.segment_seconds :=
            Cfg.segment_seconds (Cfg.evaluate Demo.configs) |} |}.

(** The clean target of [b.wav] is missing. *)
Definition missing_clean_b (path : string) (sr : Z) (mono : bool)
  : Result ndarray :=
  if String.eqb path "ws/evaluation_audios/vp/violin/b.wav"
  then Raise (LibraryError "FileNotFoundError")
  else librosa_core_load (Externals := Demo.rank_zero) path sr mono.

Definition no_clean_b : Externals :=
  with_load Demo.rank_zero missing_clean_b.

(** The evaluation directory does not exist. *)
Definition no_directory : Externals :=
  Demo.externals 0 (Raise (LibraryError "FileNotFoundError")).

(** The disk is full when the statistics are dumped. *)
Definition disk_full : Externals :=
  with_container Demo.rank_zero (fun _ _ _ _ => Ok tt)
    (fun _ => Raise (LibraryError "OSError")).

(** The demonstration callback with another evaluation frequency. *)
Definition callback_every (frequency : Z) : EvaluationCallback.t :=
  EvaluationCallback.init Demo.model 1 "ws/evaluation_audios/vp" "violin"
    44100 true 1323000 1 "cuda" frequency Demo.logger
    (StatisticsContainer.init "ws/statistics.pkl").

(** The call of the training script with a given configuration and
    workspace. *)
Definition get_callbacks (configs : Cfg.Configs) (workspace : string)
  : Result (list Callback) :=
  get_violin_piano_callbacks (E := with_configs Demo.rank_zero configs)
    "violin_piano.yaml" "datasets" workspace "ws/checkpoints"
    "ws/statistics.pkl" Demo.logger Demo.model "cuda".

(** Two target source types and a segment length that is not a number. *)
Definition nan_seconds_two_targets : Cfg.Configs :=
  {| Cfg.train := Cfg.train Demo.two_targets;
     Cfg.evaluate :=
       {| Cfg.test := Cfg.test (Cfg.evaluate Demo.configs);
          Cfg.batch_size := Cfg.batch_size (Cfg.evaluate Demo.configs);
          Cfg.segment_seconds := PyFloat S754_nan |} |}.

End Variants.

(** The wording of the specification for the assertion of
    [get_violin_piano_callbacks]: the call raises [AssertionError]
    whenever [target_source_types] does not have exactly one element. *)
Definition asserts_one_target_source_type {E : Externals}
    (config_yaml dataset_dir workspace checkpoints_dir
       statistics_path : string)
    (logger : TensorBoardLogger) (model : nn_Module)
    (evaluate_device : string) : Prop :=
  forall configs,
    read_yaml config_yaml = Ok configs ->
    List.length (Cfg.target_source_types (Cfg.train configs)) <> 1%nat ->
    exists msg,
      get_violin_piano_callbacks config_yaml dataset_dir workspace
        checkpoints_dir statistics_path logger model evaluate_device
      = Raise (AssertionError msg).

(* ===================================================================== *)
(** * Facts about the Python fragment *)
(* ===================================================================== *)

(** ** Runs *)

Section RunFacts.
Context {A B : Type}.

Lemma bind_call (e : Event) (answer : Result A) (k : A -> Run B) :
  bind (call e answer) k =
  match answer with
  | Ok a => (e :: trace (k a), outcome (k a))
  | Raise exn => ([e], Raise exn)
  end.
Proof.
  unfold call; simpl. destruct answer as [a|exn]; [|reflexivity].
  destruct (k a); reflexivity.
Qed.

Lemma bind_pure (r : Result A) (k : A -> Run B) :
  bind (pure r) k =
  match r with
  | Ok a => k a
  | Raise exn => ([], Raise exn)
  end.
Proof.
  unfold pure; simpl. destruct r as [a|exn]; [|reflexivity].
  destruct (k a); reflexivity.
Qed.

Lemma bind_run (c : Run A) (k : A -> Run B) :
  bind c k =
  match outcome c with
  | Ok a => (trace c ++ trace (k a), outcome (k a))
  | Raise exn => (trace c, Raise exn)
  end.
Proof.
  destruct c as [t [a|exn]]; simpl; [|reflexivity].
  destruct (k a); reflexivity.
Qed.

Lemma run_eta (c : Run A) : c = (trace c, outcome c).
Proof. destruct c; reflexivity. Qed.

End RunFacts.

(** ** The order on names *)

Lemma name_le_trans (a b c : string) :
  name_le a b -> name_le b c -> name_le a c.
Proof.
  unfold name_le, String.leb. revert b c.
  induction a as [|x a IH]; intros [|y b] [|z c]; simpl;
    try congruence.
  unfold Ascii.compare.
  destruct (N.compare_spec (N_of_ascii x) (N_of_ascii y)) as [Hxy|Hxy|Hxy];
    destruct (N.compare_spec (N_of_ascii y) (N_of_ascii z)) as [Hyz|Hyz|Hyz];
    destruct (N.compare_spec (N_of_ascii x) (N_of_ascii z)) as [Hxz|Hxz|Hxz];
    try lia; try congruence.
  apply IH.
Qed.

Lemma name_le_antisym (a b : string) : name_le a b -> name_le b a -> a = b.
Proof. apply String.leb_antisym. Qed.

Lemma sorted_is_sorted (l : list string) : StronglySorted name_le (sorted l).
Proof.
  apply (NameSort.StronglySorted_sort l).
  intros a b c; apply name_le_trans.
Qed.

Lemma sorted_is_permutation (l : list string) : Permutation l (sorted l).
Proof. apply NameSort.Permuted_sort. Qed.

(** A list of names has one sorted arrangement. *)
Lemma sorted_arrangement_unique (l1 l2 : list string) :
  StronglySorted name_le l1 -> StronglySorted name_le l2 ->
  Permutation l1 l2 -> l1 = l2.
Proof.
  revert l2. induction l1 as [|a l1 IH]; intros l2 S1 S2 P.
  - apply Permutation_nil in P. congruence.
  - destruct l2 as [|b l2].
    + apply Permutation_sym, Permutation_nil in P. discriminate.
    + inversion S1 as [|? ? S1' F1]; inversion S2 as [|? ? S2' F2]; subst.
      assert (a = b) as ->.
      { assert (In a (b :: l2)) as Ia
          by (eapply Permutation_in; [exact P | left; reflexivity]).
        assert (In b (a :: l1)) as Ib
          by (eapply Permutation_in;
              [apply Permutation_sym; exact P | left; reflexivity]).
        destruct Ia as [->|Ia]; [reflexivity|].
        destruct Ib as [->|Ib]; [reflexivity|].
        rewrite Forall_forall in F1, F2.
        apply name_le_antisym; auto. }
      f_equal. apply IH; auto.
      eapply Permutation_cons_inv; exact P.
Qed.

Lemma sorted_of_permutation (l1 l2 : list string) :
  Permutation l1 l2 -> sorted l1 = sorted l2.
Proof.
  intros P. apply sorted_arrangement_unique; try apply sorted_is_sorted.
  eapply Permutation_trans; [apply Permutation_sym, sorted_is_permutation|].
  eapply Permutation_trans; [exact P | apply sorted_is_permutation].
Qed.

Lemma sorted_nil_iff (l : list string) : sorted l = [] <-> l = [].
Proof.
  split; intros H.
  - pose proof (sorted_is_permutation l) as P. rewrite H in P.
    apply Permutation_sym, Permutation_nil in P. exact P.
  - subst. reflexivity.
Qed.

Lemma sorted_length (l : list string) :
  List.length (sorted l) = List.length l.
Proof. symmetry. apply Permutation_length, sorted_is_permutation. Qed.

(** ** Traces *)

Lemma container_calls_app (t1 t2 : list Event) :
  container_calls (t1 ++ t2) = container_calls t1 ++ container_calls t2.
Proof. apply filter_app. Qed.

Lemma loads_app (t1 t2 : list Event) : loads (t1 ++ t2) = loads t1 ++ loads t2.
Proof. apply filter_app. Qed.

Lemma printed_app (t1 t2 : list Event) :
  printed (t1 ++ t2) = printed t1 ++ printed t2.
Proof. apply flat_map_app. Qed.

Lemma separations_app (t1 t2 : list Event) :
  separations (t1 ++ t2) = separations t1 ++ separations t2.
Proof. apply flat_map_app. Qed.

Lemma piece_events_no_container_call (t : list Event) :
  Forall (fun e => is_piece_event e = true) t -> container_calls t = [].
Proof.
  induction 1 as [|e t He _ IH]; [reflexivity|].
  unfold container_calls in *; simpl. rewrite IH.
  destruct e; simpl in *; congruence.
Qed.

(* ===================================================================== *)
(** * The [for] loop of [on_batch_end] *)
(* ===================================================================== *)

Section Loop.
Context {E : Externals}.
Import EvaluationCallback.

(** One turn of the loop, by the first call that raises. *)
Lemma evaluate_piece_cases (self : t) (sdrs : list float64)
    (audio_name : string) :
  let mixture_path := os_path_join (mixture_audios_dir self) audio_name in
  let clean_path := os_path_join (clean_audios_dir self) audio_name in
  let load path :=
    librosa_core_load path (sample_rate self) (mono self) in
  let loaded path := Load path (sample_rate self) (mono self) in
  evaluate_piece self sdrs audio_name =
  match load mixture_path with
  | Raise exn => ([loaded mixture_path], Raise exn)
  | Ok mixture =>
    match load clean_path with
    | Raise exn => ([loaded mixture_path; loaded clean_path], Raise exn)
    | Ok clean =>
      let input_dict := [("waveform", channels_first mixture)] in
      let separated := Separate (separator self) input_dict in
      match separator_separate (separator self) input_dict with
      | Raise exn =>
          ([loaded mixture_path; loaded clean_path; separated], Raise exn)
      | Ok sep_wav =>
        match calculate_sdr clean sep_wav with
        | Raise exn =>
            ([loaded mixture_path; loaded clean_path; separated],
             Raise exn)
        | Ok sdr =>
            ([loaded mixture_path; loaded clean_path; separated;
              Print audio_name sdr], Ok (sdrs ++ [sdr]))
        end
      end
    end
  end.
Proof.
  intros mixture_path clean_path load loaded.
  unfold evaluate_piece. fold mixture_path clean_path.
  rewrite bind_call. fold (load mixture_path).
  destruct (load mixture_path) as [mixture|exn]; [|reflexivity].
  rewrite bind_call. fold (load clean_path).
  destruct (load clean_path) as [clean|exn]; [|reflexivity].
  rewrite bind_call. fold (channels_first mixture).
  destruct (separator_separate _ _) as [sep_wav|exn]; [|reflexivity].
  rewrite bind_pure.
  destruct (calculate_sdr clean sep_wav) as [sdr|exn]; reflexivity.
Qed.

Lemma for_each_cons (self : t) (sdrs : list float64)
    (audio_name : string) (rest : list string) :
  for_each (audio_name :: rest) (evaluate_piece self) sdrs =
  match outcome (evaluate_piece self sdrs audio_name) with
  | Ok sdrs' =>
      (trace (evaluate_piece self sdrs audio_name)
         ++ trace (for_each rest (evaluate_piece self) sdrs'),
       outcome (for_each rest (evaluate_piece self) sdrs'))
  | Raise exn => (trace (evaluate_piece self sdrs audio_name), Raise exn)
  end.
Proof. simpl for_each. apply bind_run. Qed.

(** Case analysis on one turn of the loop. *)
Ltac turn self sdrs audio_name :=
  rewrite for_each_cons;
  rewrite (evaluate_piece_cases self sdrs audio_name); cbv zeta;
  destruct (librosa_core_load
              (os_path_join (mixture_audios_dir self) audio_name) _ _)
    as [?mixture|?exn] eqn:?Hmixture;
  [ destruct (librosa_core_load
                (os_path_join (clean_audios_dir self) audio_name) _ _)
      as [?clean|?exn] eqn:?Hclean;
    [ destruct (separator_separate _ _) as [?sep_wav|?exn] eqn:?Hsep;
      [ destruct (calculate_sdr _ _) as [?sdr|?exn] eqn:?Hsdr | ]
    | ]
  | ];
  cbn [trace outcome fst snd].

(** The loop makes no call but loads, separations and prints. *)
Lemma evaluate_pieces_events (self : t) (audio_names : list string)
    (sdrs : list float64) :
  Forall (fun e => is_piece_event e = true)
    (trace (for_each audio_names (evaluate_piece self) sdrs)).
Proof.
  revert sdrs.
  induction audio_names as [|audio_name rest IH]; intros sdrs.
  - constructor.
  - turn self sdrs audio_name;
      repeat (first [apply IH | constructor; [reflexivity|]
                    | apply Forall_nil | apply Forall_app; split]).
Qed.


(** A loop that ends normally has scored every name once, in order. *)
Lemma evaluate_pieces_ok (self : t) (audio_names : list string)
    (sdrs result : list float64) :
  outcome (for_each audio_names (evaluate_piece self) sdrs) = Ok result ->
  let t := trace (for_each audio_names (evaluate_piece self) sdrs) in
  exists scored,
    result = sdrs ++ scored /\
    Forall2 (piece_sdr self) audio_names scored /\
    Forall2 (piece_separation self) audio_names (separations t) /\
    printed t = combine audio_names scored /\
    loads t = expected_loads self audio_names.
Proof.
  revert sdrs.
  induction audio_names as [|audio_name rest IH]; intros sdrs.
  - cbn. intros [= <-]. exists []. rewrite app_nil_r.
    repeat split; constructor.
  - turn self sdrs audio_name; try discriminate.
    intros Hok. destruct (IH _ Hok) as (scored & -> & Hs & Hcalls & Hp & Hl).
    exists (sdr :: scored). rewrite <- app_assoc.
    split; [reflexivity|].
    split; [constructor; [exists mixture, clean, sep_wav; auto | exact Hs]|].
    split; [rewrite separations_app;
            constructor; [exists mixture; auto | exact Hcalls]|].
    split; [rewrite printed_app, Hp; reflexivity|].
    rewrite loads_app, Hl. reflexivity.
Qed.

(** Conversely, the loop completes when every name can be scored. *)
Lemma evaluate_pieces_complete (self : t) (audio_names : list string)
    (sdrs scored : list float64) :
  Forall2 (piece_sdr self) audio_names scored ->
  outcome (for_each audio_names (evaluate_piece self) sdrs)
  = Ok (sdrs ++ scored).
Proof.
  intros Hscored. revert sdrs.
  induction Hscored as [|audio_name sdr rest scored Hpiece _ IH];
    intros sdrs.
  - cbn. rewrite app_nil_r. reflexivity.
  - destruct Hpiece as (mixture & clean & sep_wav & Hm & Hc & Hs & Hv).
    rewrite for_each_cons, (evaluate_piece_cases self sdrs audio_name).
    cbv zeta. rewrite Hm, Hc, Hs, Hv. cbn [trace outcome fst snd].
    rewrite IH, <- app_assoc. reflexivity.
Qed.

End Loop.

(* ===================================================================== *)
(** * [on_batch_end], by cases *)
(* ===================================================================== *)

Section OnBatchEnd.
Context {E : Externals}.
Import EvaluationCallback.

Lemma evaluate_cases (self : t) (global_step : Z) :
  evaluate self global_step =
  match os_listdir (mixture_audios_dir self) with
  | Raise exn => ([Listdir (mixture_audios_dir self)], Raise exn)
  | Ok listing =>
    let audio_names := sorted listing in
    match audio_names with
    | [] => ([Listdir (mixture_audios_dir self)],
             Raise (AssertionError (Some (error_str self))))
    | _ :: _ =>
      let pieces := evaluate_pieces self audio_names in
      let before :=
        prologue self global_step (List.length audio_names)
          ++ trace pieces in
      match outcome pieces with
      | Raise exn => (before, Raise exn)
      | Ok sdrs =>
        let recorded := before ++ epilogue self global_step sdrs in
        match statistics_container_append (statistics_container self)
                global_step [("pesq", np_mean sdrs)] "test" with
        | Raise exn => (recorded, Raise exn)
        | Ok _ =>
            (recorded ++ [Dump (statistics_container self)],
             statistics_container_dump (statistics_container self))
        end
      end
    end
  end.
Proof.
  unfold evaluate, logging_info, time_time.
  rewrite bind_call.
  destruct (os_listdir (mixture_audios_dir self)) as [listing|exn];
    [|reflexivity].
  rewrite bind_pure. fold (error_str self).
  destruct (sorted listing) as [|audio_name rest] eqn:Hnames;
    [reflexivity|].
  cbn [List.length Nat.ltb Nat.leb py_assert].
  repeat rewrite bind_call. cbn [trace outcome fst snd].
  rewrite bind_run. cbv zeta.
  destruct (outcome (evaluate_pieces self (audio_name :: rest)))
    as [sdrs|exn]; [|reflexivity].
  repeat rewrite bind_call. cbn [trace outcome fst snd].
  destruct (statistics_container_append _ _ _ _) as [[]|exn];
    cbn [trace outcome fst snd call];
    unfold prologue, epilogue; cbn [app];
    repeat (rewrite <- app_assoc; cbn [app]); reflexivity.
Qed.

Lemma on_batch_end_cases (self : t) (trainer : Trainer) :
  on_batch_end self trainer =
  if rank =? 0 then
    if evaluate_step_frequency self =? 0 then ([], Raise ZeroDivisionError)
    else if global_step trainer mod evaluate_step_frequency self =? 0
         then evaluate self (global_step trainer)
         else ([], Ok tt)
  else ([], Ok tt).
Proof.
  unfold on_batch_end, rank_zero_only, py_mod.
  destruct (rank =? 0); [|reflexivity].
  rewrite bind_pure.
  destruct (evaluate_step_frequency self =? 0); reflexivity.
Qed.

(** On a process of another rank the callback makes no call at all. *)
Lemma on_batch_end_other_rank (self : t) (trainer : Trainer) :
  rank <> 0 -> on_batch_end self trainer = ([], Ok tt).
Proof.
  intros Hrank. rewrite on_batch_end_cases.
  destruct (Z.eqb_spec rank 0); [contradiction | reflexivity].
Qed.

(** On the process of rank zero, at a multiple of a nonzero frequency,
    the callback is the evaluation. *)
Lemma on_batch_end_at_multiple (self : t) (trainer : Trainer) :
  rank = 0 ->
  evaluate_step_frequency self <> 0 ->
  (evaluate_step_frequency self | global_step trainer) ->
  on_batch_end self trainer = evaluate self (global_step trainer).
Proof.
  intros Hrank Hfreq Hdiv. rewrite on_batch_end_cases, Hrank.
  cbn [Z.eqb].
  destruct (Z.eqb_spec (evaluate_step_frequency self) 0);
    [contradiction|].
  apply Z.mod_divide in Hdiv; [|assumption].
  rewrite Hdiv. reflexivity.
Qed.

Lemma on_batch_end_between_multiples (self : t) (trainer : Trainer) :
  rank = 0 ->
  evaluate_step_frequency self <> 0 ->
  ~ (evaluate_step_frequency self | global_step trainer) ->
  on_batch_end self trainer = ([], Ok tt).
Proof.
  intros Hrank Hfreq Hdiv. rewrite on_batch_end_cases, Hrank.
  cbn [Z.eqb].
  destruct (Z.eqb_spec (evaluate_step_frequency self) 0);
    [contradiction|].
  destruct (Z.eqb_spec (global_step trainer mod evaluate_step_frequency self)
              0) as [Hmod|]; [|reflexivity].
  exfalso. apply Hdiv, Z.mod_divide; assumption.
Qed.

(** An evaluation starts by listing the mixture directory. *)
Lemma evaluate_lists_mixtures (self : t) (global_step : Z) :
  performs_evaluation self (evaluate self global_step).
Proof.
  unfold performs_evaluation. rewrite evaluate_cases.
  destruct (os_listdir _) as [listing|exn]; [|left; reflexivity].
  cbv zeta. destruct (sorted listing); [left; reflexivity|].
  destruct (outcome _); [|left; reflexivity].
  destruct (statistics_container_append _ _ _ _); left; reflexivity.
Qed.

(** With a frequency of zero the test on the step raises. *)
Lemma on_batch_end_zero_frequency (self : t) (trainer : Trainer) :
  rank = 0 ->
  evaluate_step_frequency self = 0 ->
  on_batch_end self trainer = ([], Raise ZeroDivisionError).
Proof.
  intros Hrank Hfreq. rewrite on_batch_end_cases, Hrank, Hfreq.
  reflexivity.
Qed.

(** An evaluation completes when the listing is not empty, every name
    can be scored and the statistics container accepts the record. *)
Lemma evaluate_completes (self : t) (global_step : Z)
    (listing : list string) (sdrs : list float64) :
  os_listdir (mixture_audios_dir self) = Ok listing ->
  listing <> [] ->
  Forall2 (piece_sdr self) (sorted listing) sdrs ->
  statistics_container_append (statistics_container self) global_step
    [("pesq", np_mean sdrs)] "test" = Ok tt ->
  statistics_container_dump (statistics_container self) = Ok tt ->
  outcome (evaluate self global_step) = Ok tt.
Proof.
  intros Hlist Hnonempty Hscored Happend Hdump.
  rewrite evaluate_cases, Hlist. cbv zeta.
  destruct (sorted listing) as [|audio_name rest] eqn:Hnames.
  { exfalso. apply Hnonempty, sorted_nil_iff. exact Hnames. }
  unfold evaluate_pieces.
  rewrite (evaluate_pieces_complete self _ [] sdrs Hscored).
  cbn [app]. rewrite Happend. exact Hdump.
Qed.

(** So does the callback at an evaluation step. *)
Lemma on_batch_end_completes (self : t) (trainer : Trainer)
    (listing : list string) (sdrs : list float64) :
  rank = 0 ->
  evaluate_step_frequency self <> 0 ->
  (evaluate_step_frequency self | global_step trainer) ->
  os_listdir (mixture_audios_dir self) = Ok listing ->
  listing <> [] ->
  Forall2 (piece_sdr self) (sorted listing) sdrs ->
  statistics_container_append (statistics_container self)
    (global_step trainer) [("pesq", np_mean sdrs)] "test" = Ok tt ->
  statistics_container_dump (statistics_container self) = Ok tt ->
  outcome (on_batch_end self trainer) = Ok tt.
Proof.
  intros Hrank Hfreq Hdiv Hlist Hnonempty Hscored Happend Hdump.
  rewrite on_batch_end_at_multiple by assumption.
  eapply evaluate_completes; eassumption.
Qed.

End OnBatchEnd.

(* ===================================================================== *)
(** * Properties of [on_batch_end] *)
(* ===================================================================== *)

Section OnBatchEndProperties.
Context {E : Externals}.
Import EvaluationCallback.


Lemma container_calls_prologue (self : t) (global_step : Z) (n : nat) :
  container_calls (prologue self global_step n) = [].
Proof. reflexivity. Qed.

(** C1 (amended).  With a nonzero [evaluate_step_frequency],
    [on_batch_end] performs the evaluation if and only if the process has
    rank zero and [global_step] is a multiple of the frequency (so also at
    step 0): there it is the evaluation block; at every other batch end
    it makes no call at all, so the statistics container is unchanged
    and no audio is loaded. *)
Theorem on_batch_end_evaluates_at_multiples (self : t)
    (trainer : Trainer) :
  evaluate_step_frequency self <> 0 ->
  let r := on_batch_end self trainer in
  let multiple := (evaluate_step_frequency self | global_step trainer) in
  (performs_evaluation self r <-> rank = 0 /\ multiple) /\
  (rank = 0 /\ multiple -> r = evaluate self (global_step trainer)) /\
  (~ (rank = 0 /\ multiple) ->
   r = ([], Ok tt) /\ container_calls (trace r) = [] /\
   loads (trace r) = []).
Proof.
  intros Hfreq r multiple.
  assert (Hrun : rank = 0 /\ multiple ->
                 r = evaluate self (global_step trainer))
    by (intros [Hrank Hdiv]; apply on_batch_end_at_multiple; assumption).
  assert (Hidle : ~ (rank = 0 /\ multiple) -> r = ([], Ok tt)).
  { intros Hnot. destruct (Z.eq_dec rank 0) as [Hrank|Hrank].
    - apply on_batch_end_between_multiples; try assumption.
      intros Hdiv. apply Hnot. split; assumption.
    - apply on_batch_end_other_rank. exact Hrank. }
  split; [|split].
  - split.
    + intros Hperf.
      destruct (Z.eq_dec rank 0) as [Hrank|Hrank];
        [destruct (Z.eq_dec
                     (global_step trainer mod evaluate_step_frequency self)
                     0) as [Hmod|Hmod]|].
      * split; [exact Hrank | apply Z.mod_divide; assumption].
      * exfalso. unfold performs_evaluation in Hperf.
        rewrite Hidle in Hperf; [destruct Hperf|].
        intros [_ Hdiv]. apply Hmod, Z.mod_divide; assumption.
      * exfalso. unfold performs_evaluation in Hperf.
        rewrite Hidle in Hperf; [destruct Hperf|].
        intros [Hzero _]. contradiction.
    + intros Hstep. rewrite (Hrun Hstep). apply evaluate_lists_mixtures.
  - exact Hrun.
  - intros Hnot. rewrite (Hidle Hnot). repeat split.
Qed.


(** C2.  An evaluation step that completes has called the statistics
    container exactly twice, at the very end of the run: [append], with
    the current global step, the split ['test'] and a dictionary whose
    single entry is [np.mean] of the SDR values of the pieces of this
    run, one per listed file, and then [dump]. *)
Theorem statistic_recorded_is_mean_sdr (self : t) (trainer : Trainer)
    (calls : list Event) :
  rank = 0 ->
  evaluate_step_frequency self <> 0 ->
  (evaluate_step_frequency self | global_step trainer) ->
  on_batch_end self trainer = (calls, Ok tt) ->
  exists listing pieces sdrs before,
    os_listdir (mixture_audios_dir self) = Ok listing /\
    evaluate_pieces self (sorted listing) = (pieces, Ok sdrs) /\
    Forall2 (piece_sdr self) (sorted listing) sdrs /\
    List.length sdrs = List.length listing /\
    calls = before
              ++ [Append (statistics_container self) (global_step trainer)
                    [("pesq", np_mean sdrs)] "test";
                  Dump (statistics_container self)] /\
    container_calls before = [] /\
    container_calls calls =
      [Append (statistics_container self) (global_step trainer)
         [("pesq", np_mean sdrs)] "test";
       Dump (statistics_container self)].
Proof.
  intros Hrank Hfreq Hdiv Hrun.
  rewrite on_batch_end_at_multiple, evaluate_cases in Hrun by assumption.
  destruct (os_listdir (mixture_audios_dir self)) as [listing|exn];
    [|discriminate].
  cbv zeta in Hrun.
  destruct (sorted listing) as [|audio_name rest] eqn:Hnames;
    [discriminate|].
  rewrite <- Hnames in *.
  destruct (outcome (evaluate_pieces self (sorted listing)))
    as [sdrs|exn] eqn:Hpieces; [|discriminate].
  destruct (statistics_container_append _ _ _ _) as [[]|exn];
    [|discriminate].
  injection Hrun as Hcalls Hdump.
  pose proof (evaluate_pieces_events self (sorted listing) [])
    as Hevents.
  apply piece_events_no_container_call in Hevents.
  destruct (evaluate_pieces_ok self (sorted listing) [] sdrs Hpieces)
    as (scored & Hscored & Hsdr & _).
  cbn in Hscored. subst scored.
  exists listing, (trace (evaluate_pieces self (sorted listing))), sdrs,
    (prologue self (global_step trainer) (List.length (sorted listing))
       ++ trace (evaluate_pieces self (sorted listing))
       ++ [LoggingInfo LogRule; LoggingInfo (LogAvgSdr (np_mean sdrs));
           Clock; LoggingInfo LogEvaluationTime]).
  split; [reflexivity|].
  split; [rewrite <- Hpieces; apply run_eta|].
  split; [exact Hsdr|].
  split; [rewrite <- (Forall2_length Hsdr); apply sorted_length|].
  assert (Hshape :
    calls = (prologue self (global_step trainer)
           (List.length (sorted listing))
         ++ trace (evaluate_pieces self (sorted listing))
         ++ [LoggingInfo LogRule; LoggingInfo (LogAvgSdr (np_mean sdrs));
             Clock; LoggingInfo LogEvaluationTime])
        ++ [Append (statistics_container self) (global_step trainer)
              [("pesq", np_mean sdrs)] "test";
            Dump (statistics_container self)]).
  { rewrite <- Hcalls. unfold epilogue.
    repeat rewrite <- app_assoc. reflexivity. }
  assert (Hbefore :
    container_calls
      (prologue self (global_step trainer) (List.length (sorted listing))
       ++ trace (evaluate_pieces self (sorted listing))
       ++ [LoggingInfo LogRule; LoggingInfo (LogAvgSdr (np_mean sdrs));
           Clock; LoggingInfo LogEvaluationTime]) = []).
  { rewrite !container_calls_app, container_calls_prologue.
    unfold evaluate_pieces. rewrite Hevents. reflexivity. }
  split; [exact Hshape|].
  split; [exact Hbefore|].
  rewrite Hshape, container_calls_app, Hbefore. reflexivity.
Qed.






Lemma channels_first_one_dimensional (mixture : ndarray) (n : nat) :
  shape mixture = [n] ->
  channels_first mixture =
  {| shape := [1%nat; n]; buffer := buffer mixture |}.
Proof.
  intros Hshape. unfold channels_first, ndim, new_leading_axis.
  rewrite Hshape. reflexivity.
Qed.

Lemma channels_first_otherwise (mixture : ndarray) :
  ndim mixture <> 1%nat -> channels_first mixture = mixture.
Proof.
  intros Hndim. unfold channels_first.
  destruct (Nat.eqb_spec (ndim mixture) 1); [contradiction | reflexivity].
Qed.

(** C4.  When the loop over the audio names completes, the list [sdrs]
    has exactly one value per name, in order.  The value of a name is
    [calculate_sdr] with the loaded clean signal as reference and, as
    estimate, what [Separator.separate] returned for
    [{'waveform': mixture}], where a one-dimensional mixture of [n]
    samples has got the shape [(1, n)] and any other mixture is passed as
    loaded.  The separator is called once per name, with that input. *)
Theorem one_sdr_per_audio_pair (self : t) (audio_names : list string)
    (calls : list Event) (sdrs : list float64) :
  evaluate_pieces self audio_names = (calls, Ok sdrs) ->
  List.length sdrs = List.length audio_names /\
  Forall2 (piece_sdr self) audio_names sdrs /\
  Forall2 (piece_separation self) audio_names (separations calls) /\
  printed calls = combine audio_names sdrs /\
  (forall mixture n,
      shape mixture = [n] ->
      channels_first mixture =
      {| shape := [1%nat; n]; buffer := buffer mixture |}) /\
  (forall mixture,
      ndim mixture <> 1%nat -> channels_first mixture = mixture).
Proof.
  intros Hrun.
  assert (Hok : outcome (for_each audio_names (evaluate_piece self) [])
                = Ok sdrs)
    by (fold (evaluate_pieces self audio_names); rewrite Hrun;
        reflexivity).
  destruct (evaluate_pieces_ok self audio_names [] sdrs Hok)
    as (scored & Hscored & Hsdr & Hsep & Hprinted & _).
  cbn in Hscored. subst scored.
  fold (evaluate_pieces self audio_names) in Hsep, Hprinted.
  rewrite Hrun in Hsep, Hprinted. cbn [trace fst] in Hsep, Hprinted.
  split; [symmetry; exact (Forall2_length Hsdr)|].
  repeat split; try assumption.
  - apply channels_first_one_dimensional.
  - apply channels_first_otherwise.
Qed.

End OnBatchEndProperties.

Section ListingOrder.
Import EvaluationCallback.

Lemma evaluate_with_listdir (E : Externals)
    (listdir : string -> Result (list string)) (self : t)
    (global_step : Z) (listing : list string) :
  listdir (mixture_audios_dir self) = Ok listing ->
  evaluate (E := with_listdir E listdir) self global_step =
  evaluate (E := with_listdir E (fun _ => Ok (sorted listing))) self
    global_step.
Proof.
  intros Hlist. rewrite !evaluate_cases. cbn [os_listdir with_listdir].
  rewrite Hlist. cbv zeta.
  rewrite (sorted_of_permutation (sorted listing) listing)
    by (apply Permutation_sym, sorted_is_permutation).
  reflexivity.
Qed.

(** C10.  Two evaluation runs that differ only in the order in which
    [os.listdir] returns the names of the mixture directory make the
    same calls and end the same way; in particular they record the same
    statistic. *)
Theorem recorded_average_independent_of_listing_order (E : Externals)
    (listdir1 listdir2 : string -> Result (list string)) (self : t)
    (trainer : Trainer) (listing1 listing2 : list string) :
  listdir1 (mixture_audios_dir self) = Ok listing1 ->
  listdir2 (mixture_audios_dir self) = Ok listing2 ->
  Permutation listing1 listing2 ->
  let r1 := on_batch_end (E := with_listdir E listdir1) self trainer in
  let r2 := on_batch_end (E := with_listdir E listdir2) self trainer in
  container_calls (trace r1) = container_calls (trace r2) /\ r1 = r2.
Proof.
  intros Hlist1 Hlist2 Hperm r1 r2.
  assert (Hsame : r1 = r2).
  { unfold r1, r2. rewrite !on_batch_end_cases.
    cbn [rank with_listdir].
    rewrite (evaluate_with_listdir E listdir1 self _ listing1 Hlist1).
    rewrite (evaluate_with_listdir E listdir2 self _ listing2 Hlist2).
    rewrite (sorted_of_permutation listing1 listing2 Hperm).
    reflexivity. }
  rewrite Hsame. split; reflexivity.
Qed.

End ListingOrder.

(* ===================================================================== *)
(** * Properties of [get_violin_piano_callbacks] *)
(* ===================================================================== *)

Section GetCallbacksProperties.
Context {E : Externals}.

Variables (config_yaml dataset_dir workspace checkpoints_dir
             statistics_path : string).
Variables (logger : TensorBoardLogger) (model : nn_Module).
Variable evaluate_device : string.

Lemma get_violin_piano_callbacks_cases :
  get_violin_piano_callbacks config_yaml dataset_dir workspace
    checkpoints_dir statistics_path logger model evaluate_device =
  match read_yaml config_yaml with
  | Raise exn => Raise exn
  | Ok configs =>
    match segment_samples_of configs with
    | Raise exn => Raise exn
    | Ok test_segment_samples =>
      match Cfg.target_source_types (Cfg.train configs) with
      | [target_source_type] =>
          Ok [SaveCheckpoints
                (save_checkpoints_callback_of configs checkpoints_dir
                   model);
              Evaluation
                (evaluate_test_callback_of configs workspace
                   statistics_path logger model evaluate_device
                   test_segment_samples target_source_type)]
      | _ => Raise (AssertionError None)
      end
    end
  end.
Proof.
  unfold get_violin_piano_callbacks, segment_samples_of.
  cbn [bind Monad_Result].
  destruct (read_yaml config_yaml) as [configs|exn]; [|reflexivity].
  destruct (py_mul _ _) as [product|exn]; [|reflexivity].
  destruct (py_int product) as [test_segment_samples|exn]; [|reflexivity].
  destruct (Cfg.target_source_types (Cfg.train configs))
    as [|target_source_type [|second rest]]; try reflexivity.
  cbn. unfold evaluate_test_callback_of.
  destruct (Cfg.channels (Cfg.train configs) =? 1); reflexivity.
Qed.

(** A call that returns has read a configuration with one target source
    type and a segment length that converts to an integer. *)
Lemma get_violin_piano_callbacks_ok (callbacks : list Callback) :
  get_violin_piano_callbacks config_yaml dataset_dir workspace
    checkpoints_dir statistics_path logger model evaluate_device
    = Ok callbacks ->
  exists configs test_segment_samples target_source_type,
    read_yaml config_yaml = Ok configs /\
    segment_samples_of configs = Ok test_segment_samples /\
    Cfg.target_source_types (Cfg.train configs) = [target_source_type] /\
    callbacks =
      [SaveCheckpoints
         (save_checkpoints_callback_of configs checkpoints_dir model);
       Evaluation
         (evaluate_test_callback_of configs workspace statistics_path
            logger model evaluate_device test_segment_samples
            target_source_type)].
Proof.
  rewrite get_violin_piano_callbacks_cases.
  destruct (read_yaml config_yaml) as [configs|exn]; [|discriminate].
  destruct (segment_samples_of configs) as [n|exn] eqn:Hsamples;
    [|discriminate].
  destruct (Cfg.target_source_types (Cfg.train configs))
    as [|target [|second rest]] eqn:Htarget; try discriminate.
  intros [= <-]. exists configs, n, target.
  repeat split; assumption.
Qed.

(** C5.  The evaluation callback returned by a call takes its
    parameters from the configuration read from [config_yaml]: its
    directory is [workspace] joined with the configured
    [evaluation_audios_dir], its segment length is
    [int(segment_seconds * sample_rate)], it is mono exactly when
    [channels] equals 1, and its evaluation frequency, its sample rate
    and the batch size of its separator are the configured ones. *)
Theorem evaluation_callback_parameters_from_config
    (callbacks : list Callback) :
  get_violin_piano_callbacks config_yaml dataset_dir workspace
    checkpoints_dir statistics_path logger model evaluate_device
    = Ok callbacks ->
  exists configs save_checkpoints_callback evaluate_test_callback,
    read_yaml config_yaml = Ok configs /\
    callbacks = [SaveCheckpoints save_checkpoints_callback;
                 Evaluation evaluate_test_callback] /\
    EvaluationCallback.evaluation_audios_dir evaluate_test_callback =
      os_path_join workspace
        (Cfg.evaluation_audios_dir (Cfg.test (Cfg.evaluate configs))) /\
    (product <- py_mul (Cfg.segment_seconds (Cfg.evaluate configs))
                  (PyInt (Cfg.sample_rate (Cfg.train configs))) ;;
     py_int product) =
      Ok (EvaluationCallback.segment_samples evaluate_test_callback) /\
    Separator.segment_samples
      (EvaluationCallback.separator evaluate_test_callback) =
      EvaluationCallback.segment_samples evaluate_test_callback /\
    (EvaluationCallback.mono evaluate_test_callback = true <->
     Cfg.channels (Cfg.train configs) = 1) /\
    EvaluationCallback.evaluate_step_frequency evaluate_test_callback =
      Cfg.evaluate_step_frequency (Cfg.train configs) /\
    EvaluationCallback.sample_rate evaluate_test_callback =
      Cfg.sample_rate (Cfg.train configs) /\
    Separator.batch_size
      (EvaluationCallback.separator evaluate_test_callback) =
      Cfg.batch_size (Cfg.evaluate configs).
Proof.
  intros Hcall.
  destruct (get_violin_piano_callbacks_ok callbacks Hcall)
    as (configs & n & target & Hread & Hsamples & Htarget & ->).
  eexists configs, _, _. split; [exact Hread|].
  split; [reflexivity|].
  repeat split; try exact Hsamples; cbn.
  - apply Z.eqb_eq.
  - apply Z.eqb_eq.
Qed.

(** C9.  A call that returns gives two callbacks: first the
    checkpoint-saving callback made of the given model, the given
    [checkpoints_dir] and the configured [save_step_frequency], then the
    evaluation callback. *)
Theorem two_callbacks_checkpoints_then_evaluation
    (callbacks : list Callback) :
  get_violin_piano_callbacks config_yaml dataset_dir workspace
    checkpoints_dir statistics_path logger model evaluate_device
    = Ok callbacks ->
  exists configs evaluate_test_callback,
    read_yaml config_yaml = Ok configs /\
    callbacks =
      [SaveCheckpoints
         (SaveCheckpointsCallback.init model checkpoints_dir
            (Cfg.save_step_frequency (Cfg.train configs)));
       Evaluation evaluate_test_callback] /\
    List.length callbacks = 2%nat /\
    EvaluationCallback.model evaluate_test_callback = model /\
    EvaluationCallback.logger evaluate_test_callback = logger /\
    EvaluationCallback.statistics_container evaluate_test_callback =
      StatisticsContainer.init statistics_path.
Proof.
  intros Hcall.
  destruct (get_violin_piano_callbacks_ok callbacks Hcall)
    as (configs & n & target & Hread & Hsamples & Htarget & ->).
  eexists configs, _. split; [exact Hread|].
  split; [reflexivity|]. repeat split.
Qed.

(** C8 (amended).  The segment length [int(segment_seconds *
    sample_rate)] is computed on the line before the assertion: when
    that conversion raises, the call raises its exception.  With a
    configuration whose [target_source_types] does not have exactly one
    element the call never returns callbacks, and it raises
    [AssertionError] whenever the segment length is defined; with exactly
    one element and a segment length that is defined, the call returns
    and that element is the target source type of the evaluation
    callback, and names its directory of clean audios. *)
Theorem one_target_source_type_required (configs : Cfg.Configs) :
  read_yaml config_yaml = Ok configs ->
  let result :=
    get_violin_piano_callbacks config_yaml dataset_dir workspace
      checkpoints_dir statistics_path logger model evaluate_device in
  let target_source_types :=
    Cfg.target_source_types (Cfg.train configs) in
  (List.length target_source_types <> 1%nat ->
   (forall callbacks, result <> Ok callbacks) /\
   (forall test_segment_samples,
       segment_samples_of configs = Ok test_segment_samples ->
       result = Raise (AssertionError None))) /\
  (forall target_source_type test_segment_samples,
      target_source_types = [target_source_type] ->
      segment_samples_of configs = Ok test_segment_samples ->
      exists save_checkpoints_callback evaluate_test_callback,
        result = Ok [SaveCheckpoints save_checkpoints_callback;
                     Evaluation evaluate_test_callback] /\
        EvaluationCallback.target_source_type evaluate_test_callback
          = target_source_type /\
        EvaluationCallback.clean_audios_dir evaluate_test_callback
          = os_path_join
              (EvaluationCallback.evaluation_audios_dir
                 evaluate_test_callback)
              target_source_type) /\
  (forall exn,
      segment_samples_of configs = Raise exn ->
      result = Raise exn /\ (exn = OverflowError \/ exn = ValueError)).
Proof.
  intros Hread result target_source_types.
  unfold result. rewrite get_violin_piano_callbacks_cases, Hread.
  fold target_source_types.
  split; [|split].
  - intros Hlen. split.
    + intros callbacks.
      destruct (segment_samples_of configs); [|discriminate].
      destruct target_source_types as [|first [|second rest]];
        try discriminate.
      contradiction Hlen. reflexivity.
    + intros n ->.
      destruct target_source_types as [|first [|second rest]];
        try reflexivity.
      contradiction Hlen. reflexivity.
  - intros target n -> ->. eexists _, _. repeat split.
  - intros exn Hexn. rewrite Hexn. split; [reflexivity|].
    revert Hexn. clear.
    unfold segment_samples_of, py_mul, float_of_int.
    destruct (Cfg.segment_seconds (Cfg.evaluate configs)) as [z|f];
      cbn [bind Monad_Result ret py_int]; [discriminate|].
    destruct (binary_normalize prec64 emax64 _ 0 false);
      cbn [bind Monad_Result ret py_int];
      try (intros [= <-]; left; reflexivity);
      destruct (SFmul prec64 emax64 f _); cbn [py_int];
      try discriminate;
      intros [= <-]; auto.
Qed.

End GetCallbacksProperties.

Section DatasetDir.
Context {E : Externals}.

(** C6.  [dataset_dir] is not read: two calls that differ in it only
    have the same result, callbacks or exception. *)
Theorem dataset_dir_has_no_effect
    (config_yaml dataset_dir1 dataset_dir2 workspace checkpoints_dir
       statistics_path : string)
    (logger : TensorBoardLogger) (model : nn_Module)
    (evaluate_device : string) :
  get_violin_piano_callbacks config_yaml dataset_dir1 workspace
    checkpoints_dir statistics_path logger model evaluate_device =
  get_violin_piano_callbacks config_yaml dataset_dir2 workspace
    checkpoints_dir statistics_path logger model evaluate_device.
Proof.
  (* both sides are the same case analysis, where [dataset_dir] does not
     occur *)
  rewrite !get_violin_piano_callbacks_cases. reflexivity.
Qed.

End DatasetDir.

(* ===================================================================== *)
(** * Concrete runs *)
(* ===================================================================== *)

Module Runs.
Import EvaluationCallback.

(** [int(0.29 * 100)] is 28 in binary64, not 29. *)
Example int_of_float_product :
  (product <- py_mul (PyFloat (S754_finite false 5224175567749775 (-54)))
                (PyInt 100) ;;
   py_int product) = Ok 28.
Proof. reflexivity. Qed.

Example segment_samples_of_configs :
  segment_samples_of Demo.configs = Ok 1323000.
Proof. reflexivity. Qed.

Example os_path_join_runs :
  os_path_join "ws" "evaluation_audios/vp" = "ws/evaluation_audios/vp" /\
  os_path_join "ws/" "evaluation_audios/vp" = "ws/evaluation_audios/vp" /\
  os_path_join "ws" "/data/vp" = "/data/vp" /\
  os_path_join "" "mixture" = "mixture".
Proof. repeat split. Qed.

Example sorted_runs :
  sorted ["b.wav"; "a.wav"; "B.wav"; "10.wav"; "9.wav"]
  = ["10.wav"; "9.wav"; "B.wav"; "a.wav"; "b.wav"].
Proof. reflexivity. Qed.

Example loads_at_step_2000 :
  loads (trace (on_batch_end (E := Demo.rank_zero) Demo.callback
                  (Demo.at_step 2000)))
  = [Load "ws/evaluation_audios/vp/mixture/a.wav" 44100 true;
     Load "ws/evaluation_audios/vp/violin/a.wav" 44100 true;
     Load "ws/evaluation_audios/vp/mixture/b.wav" 44100 true;
     Load "ws/evaluation_audios/vp/violin/b.wav" 44100 true].
Proof. reflexivity. Qed.

Example idle_at_step_2001 :
  on_batch_end (E := Demo.rank_zero) Demo.callback (Demo.at_step 2001)
  = ([], Ok tt).
Proof. reflexivity. Qed.

Example idle_on_rank_one_at_step_2000 :
  on_batch_end (E := Demo.rank_one) Demo.callback (Demo.at_step 2000)
  = ([], Ok tt).
Proof. reflexivity. Qed.

(** C1, as worded, fails: on a process of rank one the step 2000 is a
    multiple of the frequency 1000 and the callback does not evaluate. *)
Lemma no_evaluation_on_rank_one :
  ~ evaluates_exactly_at_multiples (E := Demo.rank_one) Demo.callback
      (Demo.at_step 2000).
Proof.
  intros [_ Hevaluates].
  assert (Hmultiple : (evaluate_step_frequency Demo.callback
                       | global_step (Demo.at_step 2000)))
    by (exists 2; reflexivity).
  apply Hevaluates in Hmultiple.
  vm_compute in Hmultiple. exact Hmultiple.
Qed.

Lemma on_batch_end_evaluates_at_multiples_witness :
  evaluate_step_frequency Demo.callback <> 0 /\
  (performs_evaluation Demo.callback
     (on_batch_end (E := Demo.rank_zero) Demo.callback
        (Demo.at_step 2000)) <->
   rank (Externals := Demo.rank_zero) = 0 /\
   (evaluate_step_frequency Demo.callback
    | global_step (Demo.at_step 2000))).
Proof.
  split; [discriminate|].
  apply (on_batch_end_evaluates_at_multiples (E := Demo.rank_zero)
           Demo.callback (Demo.at_step 2000)).
  discriminate.
Defined.


Lemma statistic_recorded_is_mean_sdr_witness :
  exists sdrs before,
    trace (on_batch_end (E := Demo.rank_zero) Demo.callback (Demo.at_step 2000))
    = before
        ++ [Append (statistics_container Demo.callback) 2000
              [("pesq", Demo.mean sdrs)] "test";
            Dump (statistics_container Demo.callback)] /\
    container_calls before = [].
Proof.
  destruct (statistic_recorded_is_mean_sdr (E := Demo.rank_zero)
              Demo.callback (Demo.at_step 2000)
              (trace (on_batch_end (E := Demo.rank_zero) Demo.callback
                        (Demo.at_step 2000))))
    as (listing & pieces & sdrs & before & _ & _ & _ & _ & H & Hb & _);
    [reflexivity | discriminate | exists 2; reflexivity | reflexivity |].
  exists sdrs, before. split; [exact H | exact Hb].
Defined.


Lemma one_sdr_per_audio_pair_witness :
  let run :=
    evaluate_pieces (E := Demo.rank_zero) Demo.callback ["a.wav"; "b.wav"] in
  let sdr := S754_finite false 5066549580791808 (-47) in
  run = (trace run, Ok [sdr; sdr]) /\
  Forall2 (piece_sdr (E := Demo.rank_zero) Demo.callback)
    ["a.wav"; "b.wav"] [sdr; sdr].
Proof.
  intros run sdr. split; [reflexivity|].
  destruct (one_sdr_per_audio_pair (E := Demo.rank_zero) Demo.callback
              ["a.wav"; "b.wav"] (trace run) [sdr; sdr])
    as (_ & Hscored & _); [reflexivity | exact Hscored].
Defined.

Lemma recorded_average_independent_of_listing_order_witness :
  Permutation ["b.wav"; "a.wav"] ["a.wav"; "b.wav"] /\
  on_batch_end
    (E := with_listdir Demo.rank_zero (fun _ => Ok ["b.wav"; "a.wav"]))
    Demo.callback (Demo.at_step 2000) =
  on_batch_end
    (E := with_listdir Demo.rank_zero (fun _ => Ok ["a.wav"; "b.wav"]))
    Demo.callback (Demo.at_step 2000).
Proof.
  split; [apply perm_swap|].
  apply (recorded_average_independent_of_listing_order Demo.rank_zero
           (fun _ => Ok ["b.wav"; "a.wav"])
           (fun _ => Ok ["a.wav"; "b.wav"])
           Demo.callback (Demo.at_step 2000)
           ["b.wav"; "a.wav"] ["a.wav"; "b.wav"]);
    [reflexivity | reflexivity | apply perm_swap].
Defined.

Lemma evaluation_callback_parameters_from_config_witness :
  Demo.get_callbacks "violin_piano.yaml" = Ok demo_returned_callbacks /\
  exists configs save_checkpoints_callback evaluate_test_callback,
    read_yaml (Externals := Demo.rank_zero) "violin_piano.yaml" = Ok configs /\
    demo_returned_callbacks = [SaveCheckpoints save_checkpoints_callback;
                          Evaluation evaluate_test_callback] /\
    evaluation_audios_dir evaluate_test_callback =
      os_path_join "ws"
        (Cfg.evaluation_audios_dir (Cfg.test (Cfg.evaluate configs))).
Proof.
  split; [reflexivity|].
  destruct (evaluation_callback_parameters_from_config (E := Demo.rank_zero)
              "violin_piano.yaml" "datasets" "ws" "ws/checkpoints"
              "ws/statistics.pkl" Demo.logger Demo.model "cuda"
              demo_returned_callbacks)
    as (configs & save & callback & Hread & Hcallbacks & Hdir & _);
    [reflexivity|].
  exists configs, save, callback. repeat split; assumption.
Defined.

Lemma two_callbacks_checkpoints_then_evaluation_witness :
  Demo.get_callbacks "violin_piano.yaml" = Ok demo_returned_callbacks /\
  exists configs evaluate_test_callback,
    read_yaml (Externals := Demo.rank_zero) "violin_piano.yaml" = Ok configs /\
    demo_returned_callbacks =
      [SaveCheckpoints
         (SaveCheckpointsCallback.init Demo.model "ws/checkpoints"
            (Cfg.save_step_frequency (Cfg.train configs)));
       Evaluation evaluate_test_callback].
Proof.
  split; [reflexivity|].
  destruct (two_callbacks_checkpoints_then_evaluation (E := Demo.rank_zero)
              "violin_piano.yaml" "datasets" "ws" "ws/checkpoints"
              "ws/statistics.pkl" Demo.logger Demo.model "cuda"
              demo_returned_callbacks)
    as (configs & callback & Hread & Hcallbacks & _);
    [reflexivity|].
  exists configs, callback. split; assumption.
Defined.

Lemma one_target_source_type_required_witness :
  read_yaml (Externals := Demo.rank_zero) "two_targets.yaml"
    = Ok Demo.two_targets /\
  Demo.get_callbacks "two_targets.yaml" = Raise (AssertionError None).
Proof.
  split; [reflexivity|].
  destruct (one_target_source_type_required (E := Demo.rank_zero)
              "two_targets.yaml" "datasets" "ws" "ws/checkpoints"
              "ws/statistics.pkl" Demo.logger Demo.model "cuda"
              Demo.two_targets)
    as [Hraises _]; [reflexivity|].
  destruct Hraises as [_ Hassert]; [discriminate|].
  exact (Hassert 1323000 eq_refl).
Defined.

End Runs.

(* ===================================================================== *)
(** * Further properties of [on_batch_end] *)
(* ===================================================================== *)

Section FurtherOnBatchEnd.
Context {E : Externals}.
Import EvaluationCallback.

(** A run that makes a call is an evaluation. *)
Lemma on_batch_end_calls_inv (self : t) (trainer : Trainer) :
  trace (on_batch_end self trainer) <> [] ->
  rank = 0 /\
  evaluate_step_frequency self <> 0 /\
  (evaluate_step_frequency self | global_step trainer) /\
  on_batch_end self trainer = evaluate self (global_step trainer).
Proof.
  rewrite on_batch_end_cases.
  destruct (Z.eqb_spec rank 0) as [Hrank|Hrank];
    [|intros H; contradiction H; reflexivity].
  destruct (Z.eqb_spec (evaluate_step_frequency self) 0) as [Hfreq|Hfreq];
    [intros H; contradiction H; reflexivity|].
  destruct (Z.eqb_spec
              (global_step trainer mod evaluate_step_frequency self) 0)
    as [Hmod|Hmod]; [|intros H; contradiction H; reflexivity].
  intros _. repeat split; try assumption.
  apply Z.mod_divide; assumption.
Qed.

Lemma in_trace_not_empty (e : Event) (r : Run unit) :
  In e (trace r) -> trace r <> [].
Proof. intros Hin Hnil. rewrite Hnil in Hin. destruct Hin. Qed.

Lemma in_pieces_is_piece_event (self : t) (audio_names : list string)
    (e : Event) :
  In e (trace (evaluate_pieces self audio_names)) ->
  is_piece_event e = true.
Proof.
  intros Hin.
  pose proof (evaluate_pieces_events self audio_names []) as Hall.
  rewrite Forall_forall in Hall. apply Hall. exact Hin.
Qed.

(** Case analysis on a membership in a list written out. *)
Ltac in_cases H :=
  repeat (destruct H as [H|H]; [try discriminate H|]);
  try contradiction H.

(** An evaluation, by the first call that raises. *)
Ltac evaluation_cases self Hrun :=
  rewrite evaluate_cases in Hrun;
  destruct (os_listdir (mixture_audios_dir self))
    as [?listing|?exn] eqn:?Hlisting;
  [ cbv zeta in Hrun;
    destruct (sorted listing) as [|?first ?rest] eqn:?Hnames;
    [ | rewrite <- Hnames in Hrun;
        destruct (outcome (evaluate_pieces self (sorted listing)))
          as [?sdrs|?exn] eqn:?Hpieces;
        [ destruct (statistics_container_append
                      (statistics_container self) _ _ _)
            as [[]|?exn] eqn:?Happend | ] ]
  | ];
  cbn [trace outcome fst snd] in Hrun.

(** X1.  With [evaluate_step_frequency] equal to zero the callback never
    evaluates: on the process of rank zero every batch end raises
    [ZeroDivisionError] before any call, on the other processes every
    batch end returns without any call. *)
Theorem zero_frequency_never_evaluates (self : t) (trainer : Trainer) :
  evaluate_step_frequency self = 0 ->
  let r := on_batch_end self trainer in
  trace r = [] /\
  (rank = 0 -> outcome r = Raise ZeroDivisionError) /\
  (rank <> 0 -> outcome r = Ok tt).
Proof.
  intros Hfreq r. unfold r. rewrite on_batch_end_cases, Hfreq.
  destruct (Z.eqb_spec rank 0) as [Hrank|Hrank]; cbn.
  - repeat split. intros Hnot. contradiction.
  - repeat split. intros Hzero. contradiction.
Qed.

(** X2.  No statistic is recorded for a part of the files: whenever
    [append] is called, the directory listing was not empty and every
    listed file has been scored, and the record is the mean of all these
    SDR values, with the current step, under ['pesq'] and ['test'], on
    the container of the callback. *)
Theorem record_only_after_all_pieces (self : t) (trainer : Trainer)
    (container : StatisticsContainer.t) (steps : Z)
    (statistics : dict float64) (split : string) :
  In (Append container steps statistics split)
    (trace (on_batch_end self trainer)) ->
  exists listing sdrs,
    os_listdir (mixture_audios_dir self) = Ok listing /\
    listing <> [] /\
    Forall2 (piece_sdr self) (sorted listing) sdrs /\
    container = statistics_container self /\
    steps = global_step trainer /\
    statistics = [("pesq", np_mean sdrs)] /\
    split = "test".
Proof.
  intros Hin.
  destruct (on_batch_end_calls_inv self trainer
              (in_trace_not_empty _ _ Hin)) as (_ & _ & _ & Hrun).
  rewrite Hrun in Hin. clear Hrun.
  evaluation_cases self Hin.
  - in_cases Hin.
  - assert (Hscored : Forall2 (piece_sdr self) (sorted listing) sdrs).
    { destruct (evaluate_pieces_ok self (sorted listing) [] sdrs Hpieces)
        as (scored & Hsdrs & Hscored & _).
      cbn in Hsdrs. subst scored. exact Hscored. }
    assert (Hnonempty : listing <> []).
    { intros ->. discriminate Hnames. }
    rewrite !in_app_iff in Hin.
    destruct Hin as [[[Hin|Hin]|Hin]|Hin].
    + in_cases Hin.
    + apply in_pieces_is_piece_event in Hin. discriminate Hin.
    + in_cases Hin. injection Hin as <- <- <- <-.
      exists listing, sdrs. repeat split; assumption.
    + in_cases Hin.
  - assert (Hscored : Forall2 (piece_sdr self) (sorted listing) sdrs).
    { destruct (evaluate_pieces_ok self (sorted listing) [] sdrs Hpieces)
        as (scored & Hsdrs & Hscored & _).
      cbn in Hsdrs. subst scored. exact Hscored. }
    assert (Hnonempty : listing <> []).
    { intros ->. discriminate Hnames. }
    rewrite !in_app_iff in Hin.
    destruct Hin as [[Hin|Hin]|Hin].
    + in_cases Hin.
    + apply in_pieces_is_piece_event in Hin. discriminate Hin.
    + in_cases Hin. injection Hin as <- <- <- <-.
      exists listing, sdrs. repeat split; assumption.
  - rewrite in_app_iff in Hin. destruct Hin as [Hin|Hin].
    + in_cases Hin.
    + apply in_pieces_is_piece_event in Hin. discriminate Hin.
  - in_cases Hin.
Qed.

(** X3.  [dump] is called only after [append] has returned, right after
    it and as the last call of the run; the result of the callback is then
    the result of [dump], so an exception of [dump] leaves the callback
    with the record already appended. *)
Theorem dump_only_after_append (self : t) (trainer : Trainer)
    (container : StatisticsContainer.t) :
  let r := on_batch_end self trainer in
  In (Dump container) (trace r) ->
  exists before sdrs,
    trace r =
      before
        ++ [Append (statistics_container self) (global_step trainer)
              [("pesq", np_mean sdrs)] "test";
            Dump container] /\
    (forall c, ~ In (Dump c) before) /\
    container = statistics_container self /\
    statistics_container_append (statistics_container self)
      (global_step trainer) [("pesq", np_mean sdrs)] "test" = Ok tt /\
    outcome r = statistics_container_dump (statistics_container self).
Proof.
  intros r Hin. unfold r in *. clear r.
  destruct (on_batch_end_calls_inv self trainer
              (in_trace_not_empty _ _ Hin)) as (_ & _ & _ & Hrun).
  rewrite Hrun in *. clear Hrun.
  remember (evaluate self (global_step trainer)) as run eqn:Hrun.
  symmetry in Hrun. evaluation_cases self Hrun; subst run;
    cbn [trace outcome fst snd] in *.
  - in_cases Hin.
  - exists (prologue self (global_step trainer)
              (List.length (sorted listing))
            ++ trace (evaluate_pieces self (sorted listing))
            ++ [LoggingInfo LogRule; LoggingInfo (LogAvgSdr (np_mean sdrs));
                Clock; LoggingInfo LogEvaluationTime]), sdrs.
    assert (Hbefore : forall c,
      ~ In (Dump c)
          (prologue self (global_step trainer)
             (List.length (sorted listing))
           ++ trace (evaluate_pieces self (sorted listing))
           ++ [LoggingInfo LogRule; LoggingInfo (LogAvgSdr (np_mean sdrs));
               Clock; LoggingInfo LogEvaluationTime])).
    { intros c Hc. rewrite !in_app_iff in Hc.
      destruct Hc as [Hc|[Hc|Hc]].
      - in_cases Hc.
      - apply in_pieces_is_piece_event in Hc. discriminate Hc.
      - in_cases Hc. }
    rewrite !in_app_iff in Hin.
    destruct Hin as [[[Hin|Hin]|Hin]|Hin].
    + in_cases Hin.
    + apply in_pieces_is_piece_event in Hin. discriminate Hin.
    + in_cases Hin.
    + in_cases Hin. injection Hin as <-.
      split; [unfold epilogue; repeat rewrite <- app_assoc; reflexivity|].
      split; [exact Hbefore|]. repeat split. exact Happend.
  - rewrite !in_app_iff in Hin. destruct Hin as [[Hin|Hin]|Hin].
    + in_cases Hin.
    + apply in_pieces_is_piece_event in Hin. discriminate Hin.
    + in_cases Hin.
  - rewrite in_app_iff in Hin. destruct Hin as [Hin|Hin].
    + in_cases Hin.
    + apply in_pieces_is_piece_event in Hin. discriminate Hin.
  - in_cases Hin.
Qed.

(** X4.  An exception of [os.listdir] on the mixture directory (a missing
    directory, say) leaves the callback at every evaluation step, right
    after the listing: nothing is logged, loaded or recorded. *)
Theorem listdir_exception_propagates (self : t) (trainer : Trainer)
    (exn : Exception) :
  rank = 0 ->
  evaluate_step_frequency self <> 0 ->
  (evaluate_step_frequency self | global_step trainer) ->
  os_listdir (mixture_audios_dir self) = Raise exn ->
  on_batch_end self trainer
  = ([Listdir (mixture_audios_dir self)], Raise exn).
Proof.
  intros Hrank Hfreq Hdiv Hlist.
  rewrite on_batch_end_at_multiple by assumption.
  rewrite evaluate_cases, Hlist. reflexivity.
Qed.

(** X5.  The directory listing comes first and once: a run of the
    callback either makes no call, or starts by listing the mixture
    directory and never lists a directory again. *)
Theorem listing_is_first_and_single (self : t) (trainer : Trainer) :
  let r := on_batch_end self trainer in
  trace r = [] \/
  exists rest,
    trace r = Listdir (mixture_audios_dir self) :: rest /\
    forall path, ~ In (Listdir path) rest.
Proof.
  intros r. unfold r. clear r.
  destruct (trace (on_batch_end self trainer)) as [|e calls] eqn:Htrace;
    [left; reflexivity | right].
  assert (Hcalls : trace (on_batch_end self trainer) <> [])
    by (rewrite Htrace; discriminate).
  destruct (on_batch_end_calls_inv self trainer Hcalls)
    as (_ & _ & _ & Hrun).
  rewrite Hrun in Htrace. clear Hrun Hcalls.
  remember (evaluate self (global_step trainer)) as run eqn:Hrun.
  symmetry in Hrun. evaluation_cases self Hrun; subst run;
    cbn [trace outcome fst snd prologue app] in Htrace;
    injection Htrace as <- <-;
    (eexists; split; [reflexivity|]); intros path Hin;
    repeat (rewrite in_app_iff in Hin ||
            match type of Hin with
            | In _ (_ :: _) => destruct Hin as [Hin|Hin];
                               [try discriminate Hin|]
            | _ \/ _ => destruct Hin as [Hin|Hin]
            end);
    try contradiction Hin;
    try (apply in_pieces_is_piece_event in Hin; discriminate Hin);
    try (in_cases Hin).
Qed.

(** ** A file that cannot be scored *)

Lemma evaluate_piece_from (self : t) (sdrs : list float64)
    (audio_name : string) :
  trace (evaluate_piece self sdrs audio_name) = piece_calls self audio_name
  /\
  outcome (evaluate_piece self sdrs audio_name) =
  match outcome (evaluate_piece self [] audio_name) with
  | Ok scored => Ok (sdrs ++ scored)
  | Raise exn => Raise exn
  end.
Proof.
  unfold piece_calls.
  rewrite (evaluate_piece_cases self sdrs audio_name),
    (evaluate_piece_cases self [] audio_name). cbv zeta.
  destruct (librosa_core_load
              (os_path_join (mixture_audios_dir self) audio_name) _ _)
    as [mixture|exn]; [|split; reflexivity].
  destruct (librosa_core_load
              (os_path_join (clean_audios_dir self) audio_name) _ _)
    as [clean|exn]; [|split; reflexivity].
  destruct (separator_separate _ _) as [sep_wav|exn];
    [|split; reflexivity].
  destruct (calculate_sdr _ _) as [sdr|exn]; split; reflexivity.
Qed.

Lemma evaluate_piece_scored (self : t) (sdrs : list float64)
    (audio_name : string) (sdr : float64) :
  piece_sdr self audio_name sdr ->
  outcome (evaluate_piece self sdrs audio_name) = Ok (sdrs ++ [sdr]).
Proof.
  intros (mixture & clean & sep_wav & Hm & Hc & Hs & Hv).
  rewrite (evaluate_piece_cases self sdrs audio_name). cbv zeta.
  rewrite Hm, Hc, Hs, Hv. reflexivity.
Qed.

Lemma piece_calls_events (self : t) (audio_name : string) :
  Forall (fun e => is_piece_event e = true) (piece_calls self audio_name).
Proof.
  unfold piece_calls.
  rewrite (evaluate_piece_cases self [] audio_name). cbv zeta.
  destruct (librosa_core_load
              (os_path_join (mixture_audios_dir self) audio_name) _ _);
    [|repeat constructor].
  destruct (librosa_core_load
              (os_path_join (clean_audios_dir self) audio_name) _ _);
    [|repeat constructor].
  destruct (separator_separate _ _); [|repeat constructor].
  destruct (calculate_sdr _ _); repeat constructor.
Qed.

Lemma piece_raises_prints_nothing (self : t) (audio_name : string)
    (exn : Exception) :
  piece_raises self audio_name exn ->
  printed (piece_calls self audio_name) = [].
Proof.
  unfold piece_raises, piece_calls.
  rewrite (evaluate_piece_cases self [] audio_name). cbv zeta.
  destruct (librosa_core_load
              (os_path_join (mixture_audios_dir self) audio_name) _ _);
    [|reflexivity].
  destruct (librosa_core_load
              (os_path_join (clean_audios_dir self) audio_name) _ _);
    [|reflexivity].
  destruct (separator_separate _ _); [|reflexivity].
  destruct (calculate_sdr _ _); [discriminate | reflexivity].
Qed.

(** The loop stops at the first name that cannot be scored. *)
Lemma for_each_stops (self : t) (before after : list string)
    (scored : list float64) (audio_name : string) (exn : Exception)
    (sdrs : list float64) :
  Forall2 (piece_sdr self) before scored ->
  piece_raises self audio_name exn ->
  for_each (before ++ audio_name :: after) (evaluate_piece self) sdrs =
  (trace (for_each before (evaluate_piece self) sdrs)
     ++ piece_calls self audio_name,
   Raise exn).
Proof.
  intros Hscored Hraises. revert sdrs.
  induction Hscored as [|name sdr before scored Hpiece _ IH]; intros sdrs.
  - cbn [app]. rewrite for_each_cons.
    destruct (evaluate_piece_from self sdrs audio_name) as [Hcalls Hout].
    unfold piece_raises in Hraises.
    rewrite Hout, Hraises, Hcalls. reflexivity.
  - cbn [app]. rewrite !for_each_cons.
    rewrite (evaluate_piece_scored self sdrs name sdr Hpiece).
    rewrite IH. cbn [trace outcome fst snd].
    rewrite app_assoc. reflexivity.
Qed.

(** X6.  The first file, in sorted order, that cannot be scored stops the
    evaluation: the callback raises the exception of that file, the names
    sorted before it have been loaded and printed, its own calls end at
    the one that raised, no later file is loaded and the statistics
    container is not called. *)
Theorem first_failing_piece_stops_evaluation (self : t)
    (trainer : Trainer) (listing before after : list string)
    (scored : list float64) (audio_name : string) (exn : Exception) :
  rank = 0 ->
  evaluate_step_frequency self <> 0 ->
  (evaluate_step_frequency self | global_step trainer) ->
  os_listdir (mixture_audios_dir self) = Ok listing ->
  sorted listing = before ++ audio_name :: after ->
  Forall2 (piece_sdr self) before scored ->
  piece_raises self audio_name exn ->
  let r := on_batch_end self trainer in
  outcome r = Raise exn /\
  loads (trace r)
    = expected_loads self before ++ loads (piece_calls self audio_name) /\
  printed (trace r) = combine before scored /\
  container_calls (trace r) = [].
Proof.
  intros Hrank Hfreq Hdiv Hlist Hsorted Hscored Hraises r. unfold r.
  rewrite on_batch_end_at_multiple by assumption.
  rewrite evaluate_cases, Hlist. cbv zeta. rewrite Hsorted.
  destruct (before ++ audio_name :: after) as [|first rest] eqn:Hnames;
    [destruct before; discriminate|].
  rewrite <- Hnames. unfold evaluate_pieces.
  rewrite (for_each_stops self before after scored audio_name exn []
             Hscored Hraises).
  cbn [trace outcome fst snd].
  pose proof (evaluate_pieces_complete self before [] scored Hscored)
    as Hok.
  destruct (evaluate_pieces_ok self before [] _ Hok)
    as (scored' & Heq & _ & _ & Hprinted & Hloads).
  cbn [app] in Heq. subst scored'.
  split; [reflexivity|].
  split; [rewrite !loads_app, Hloads; reflexivity|].
  split.
  - rewrite !printed_app, Hprinted,
      (piece_raises_prints_nothing self audio_name exn Hraises).
    cbn [app printed prologue flat_map]. apply app_nil_r.
  - rewrite container_calls_app. cbn [app].
    apply piece_events_no_container_call, Forall_app. split.
    + apply evaluate_pieces_events.
    + apply piece_calls_events.
Qed.

(** ** Counting the evaluations *)

Lemma evaluates_at_multiples (self : t) (step : Z) :
  rank = 0 ->
  evaluate_step_frequency self <> 0 ->
  evaluates_at self step = (step mod evaluate_step_frequency self =? 0).
Proof.
  intros Hrank Hfreq. unfold evaluates_at.
  rewrite on_batch_end_cases, Hrank. cbn [Z.eqb global_step].
  destruct (Z.eqb_spec (evaluate_step_frequency self) 0);
    [contradiction|].
  destruct (step mod evaluate_step_frequency self =? 0); [|reflexivity].
  pose proof (evaluate_lists_mixtures self step) as Hlists.
  unfold performs_evaluation in Hlists.
  destruct (trace (evaluate self step)); [destruct Hlists | reflexivity].
Qed.

(** X7.  On the process of rank zero, with a frequency [f > 0], the
    callback evaluates at [ceil(n / f)] of the [n] steps [0], ...,
    [n - 1]. *)
Theorem evaluations_in_first_steps (self : t) (n : nat) :
  rank = 0 ->
  0 < evaluate_step_frequency self ->
  Z.of_nat (evaluations_before self n)
  = (Z.of_nat n + evaluate_step_frequency self - 1)
      / evaluate_step_frequency self.
Proof.
  intros Hrank Hfreq. unfold evaluations_before.
  set (f := evaluate_step_frequency self) in *.
  induction n as [|n IH].
  - cbn. symmetry. apply Z.div_small. lia.
  - rewrite seq_S, map_app, filter_app, length_app, Nat2Z.inj_add, IH.
    cbn [plus map filter].
    rewrite evaluates_at_multiples by (try assumption; fold f; lia).
    fold f.
    pose proof (Z.div_mod (Z.of_nat n) f ltac:(lia)) as Hdivmod.
    pose proof (Z.mod_pos_bound (Z.of_nat n) f Hfreq) as Hbound.
    replace (Z.of_nat (S n) + f - 1) with (Z.of_nat n + 1 * f) by lia.
    rewrite Z.div_add by lia.
    destruct (Z.eqb_spec (Z.of_nat n mod f) 0) as [Hmod|Hmod]; cbn.
    + rewrite (Z.div_unique (Z.of_nat n + f - 1) f (Z.of_nat n / f) (f - 1));
        lia.
    + rewrite (Z.div_unique (Z.of_nat n + f - 1) f (Z.of_nat n / f + 1)
                 (Z.of_nat n mod f - 1)); lia.
Qed.

(** ** The calls of a complete evaluation *)

Lemma expected_loads_length (self : t) (audio_names : list string) :
  List.length (expected_loads self audio_names)
  = (2 * List.length audio_names)%nat.
Proof.
  unfold expected_loads.
  induction audio_names as [|name rest IH]; [reflexivity|].
  cbn [flat_map loads_of_name app List.length]. rewrite IH. lia.
Qed.

(** X11.  An evaluation step that completes has loaded exactly two audio
    files per listed name, run the separator exactly once per listed name
    and printed one SDR per listed name. *)
Theorem calls_per_listed_file (self : t) (trainer : Trainer)
    (calls : list Event) (listed : list string) :
  os_listdir (mixture_audios_dir self) = Ok listed ->
  on_batch_end self trainer = (calls, Ok tt) ->
  calls <> [] ->
  List.length (loads calls) = (2 * List.length listed)%nat /\
  List.length (separations calls) = List.length listed /\
  List.length (printed calls) = List.length listed.
Proof.
  intros Hlist Hrun Hcalls.
  assert (Hmade : trace (on_batch_end self trainer) <> [])
    by (rewrite Hrun; exact Hcalls).
  destruct (on_batch_end_calls_inv self trainer Hmade)
    as (_ & _ & _ & Heval).
  rewrite Heval in Hrun. clear Heval Hmade.
  evaluation_cases self Hrun; try discriminate.
  injection Hlist as <-.
  apply (f_equal trace) in Hrun. cbn [trace fst] in Hrun. subst calls.
  destruct (evaluate_pieces_ok self (sorted listing) [] sdrs Hpieces)
    as (scored & Hsdrs & Hscored & Hseparations & Hprinted & Hloads).
  cbn [app] in Hsdrs. subst scored.
  fold (evaluate_pieces self (sorted listing))
    in Hseparations, Hprinted, Hloads.
  rewrite !loads_app, !separations_app, !printed_app.
  rewrite Hloads, Hprinted.
  cbn [loads separations printed prologue epilogue filter flat_map
         is_load app].
  rewrite !app_nil_r.
  rewrite expected_loads_length, length_combine.
  rewrite <- (Forall2_length Hseparations), <- (Forall2_length Hscored).
  rewrite sorted_length. repeat split; lia.
Qed.

End FurtherOnBatchEnd.

(* ===================================================================== *)
(** * Further properties of [get_violin_piano_callbacks] *)
(* ===================================================================== *)

(** ** The segment length *)




Lemma segment_samples_of_exceptions (configs : Cfg.Configs)
    (exn : Exception) :
  segment_samples_of configs = Raise exn ->
  exn = OverflowError \/ exn = ValueError.
Proof.
  unfold segment_samples_of, py_mul, float_of_int.
  destruct (Cfg.segment_seconds (Cfg.evaluate configs)) as [z|f];
    cbn [bind Monad_Result ret py_int].
  - discriminate.
  - destruct (binary_normalize prec64 emax64 _ 0 false);
      cbn [bind Monad_Result ret py_int];
      try (intros [= <-]; left; reflexivity);
      destruct (SFmul prec64 emax64 f _); cbn [py_int];
      try discriminate;
      intros [= <-]; auto.
Qed.

Section FurtherGetCallbacks.
Context {E : Externals}.

Variables (config_yaml dataset_dir workspace checkpoints_dir
             statistics_path : string).
Variables (logger : TensorBoardLogger) (model : nn_Module).
Variable evaluate_device : string.

(** X8.  Once the configuration is read, the call returns two callbacks,
    and then [target_source_types] has exactly one element, or raises
    [OverflowError] or [ValueError] from the segment length, or raises
    [AssertionError], and then [target_source_types] does not have exactly
    one element.  In particular the indexing [target_source_types[0]]
    never raises [IndexError]. *)
Theorem get_violin_piano_callbacks_outcomes (configs : Cfg.Configs) :
  read_yaml config_yaml = Ok configs ->
  let target_source_types :=
    Cfg.target_source_types (Cfg.train configs) in
  match get_violin_piano_callbacks config_yaml dataset_dir workspace
          checkpoints_dir statistics_path logger model evaluate_device
  with
  | Ok callbacks =>
      List.length target_source_types = 1%nat /\
      List.length callbacks = 2%nat
  | Raise exn =>
      exn = OverflowError \/ exn = ValueError \/
      (exn = AssertionError None /\
       List.length target_source_types <> 1%nat)
  end.
Proof.
  intros Hread target_source_types.
  rewrite get_violin_piano_callbacks_cases, Hread.
  destruct (segment_samples_of configs) as [n|exn] eqn:Hsamples.
  - fold target_source_types.
    destruct target_source_types as [|first [|second rest]]; cbn.
    + right. right. split; [reflexivity | discriminate].
    + split; reflexivity.
    + right. right. split; [reflexivity | discriminate].
  - destruct (segment_samples_of_exceptions configs exn Hsamples);
      [left | right; left]; assumption.
Qed.

(** X9.  The segment length is converted before the target source types
    are checked: with a [segment_seconds] that is NaN or infinite the call
    raises [ValueError] or [OverflowError], whatever
    [target_source_types] holds.  For NaN it is [ValueError] when the
    sample rate converts to a float and [OverflowError] when it is too
    large to convert; for an infinite [segment_seconds] it is
    [ValueError] when the sample rate is 0 and [OverflowError] when the
    sample rate converts to a finite float that is not zero. *)
Theorem segment_length_checked_before_targets (configs : Cfg.Configs)
    (seconds : float64) :
  read_yaml config_yaml = Ok configs ->
  Cfg.segment_seconds (Cfg.evaluate configs) = PyFloat seconds ->
  seconds = S754_nan \/ (exists s, seconds = S754_infinity s) ->
  let result :=
    get_violin_piano_callbacks config_yaml dataset_dir workspace
      checkpoints_dir statistics_path logger model evaluate_device in
  let sample_rate := Cfg.sample_rate (Cfg.train configs) in
  (result = Raise ValueError \/ result = Raise OverflowError) /\
  (seconds = S754_nan ->
   result = match float_of_int sample_rate with
            | Ok _ => Raise ValueError
            | Raise _ => Raise OverflowError
            end) /\
  (forall s,
      seconds = S754_infinity s -> sample_rate = 0 ->
      result = Raise ValueError) /\
  (forall s s' m e,
      seconds = S754_infinity s ->
      float_of_int sample_rate = Ok (S754_finite s' m e) ->
      result = Raise OverflowError).
Proof.
  intros Hread Hseconds Hspecial result sample_rate. unfold result.
  rewrite get_violin_piano_callbacks_cases, Hread.
  unfold segment_samples_of, py_mul. rewrite Hseconds.
  fold sample_rate.
  split; [|split; [|split]].
  - unfold float_of_int.
    destruct (binary_normalize prec64 emax64 sample_rate 0 false)
      as [sr|sr| |sr m e]; cbn [bind Monad_Result ret];
      destruct Hspecial as [->|[s ->]]; cbn; auto.
  - intros ->. unfold float_of_int.
    destruct (binary_normalize prec64 emax64 sample_rate 0 false);
      reflexivity.
  - intros s -> ->. reflexivity.
  - intros s s' m e -> ->. reflexivity.
Qed.


End FurtherGetCallbacks.

(* ===================================================================== *)
(** * Where the audio files are *)
(* ===================================================================== *)







Lemma os_path_join_absolute (a b : string) :
  startswith_sep b = true -> os_path_join a b = b.
Proof. intros Hstart. unfold os_path_join. rewrite Hstart. reflexivity. Qed.

Section FileLayout.
Context {E : Externals}.
Import EvaluationCallback.


End FileLayout.

Section Workspace.
Context {E : Externals}.

(** X13.  An absolute [evaluation_audios_dir] in the configuration
    replaces the workspace: the callbacks returned do not depend on
    [workspace], and the evaluation callback works in the configured
    directory itself. *)
Theorem absolute_evaluation_dir_ignores_workspace
    (config_yaml dataset_dir workspace1 workspace2 checkpoints_dir
       statistics_path : string)
    (logger : TensorBoardLogger) (model : nn_Module)
    (evaluate_device : string) (configs : Cfg.Configs) :
  read_yaml config_yaml = Ok configs ->
  startswith_sep
    (Cfg.evaluation_audios_dir (Cfg.test (Cfg.evaluate configs))) = true ->
  get_violin_piano_callbacks config_yaml dataset_dir workspace1
    checkpoints_dir statistics_path logger model evaluate_device =
  get_violin_piano_callbacks config_yaml dataset_dir workspace2
    checkpoints_dir statistics_path logger model evaluate_device /\
  forall callbacks,
    get_violin_piano_callbacks config_yaml dataset_dir workspace1
      checkpoints_dir statistics_path logger model evaluate_device
      = Ok callbacks ->
    exists save_checkpoints_callback evaluate_test_callback,
      callbacks = [SaveCheckpoints save_checkpoints_callback;
                   Evaluation evaluate_test_callback] /\
      EvaluationCallback.evaluation_audios_dir evaluate_test_callback
      = Cfg.evaluation_audios_dir (Cfg.test (Cfg.evaluate configs)).
Proof.
  intros Hread Habsolute. split.
  - rewrite !get_violin_piano_callbacks_cases, Hread.
    unfold evaluate_test_callback_of.
    rewrite !os_path_join_absolute by exact Habsolute. reflexivity.
  - intros callbacks Hcall.
    destruct (get_violin_piano_callbacks_ok _ _ _ _ _ _ _ _ callbacks
                Hcall)
      as (configs' & n & target & Hread' & _ & _ & ->).
    rewrite Hread in Hread'. injection Hread' as <-.
    eexists _, _. split; [reflexivity|].
    cbn. apply os_path_join_absolute. exact Habsolute.
Qed.

(** X14.  The callback returned for a configuration with a nonzero
    [evaluate_step_frequency] makes calls exactly at the batch ends of the
    process of rank zero whose step is a multiple of that frequency; its
    first call lists [mixture] under the workspace joined with the
    configured [evaluation_audios_dir]. *)
Theorem returned_callback_follows_configuration
    (config_yaml dataset_dir workspace checkpoints_dir
       statistics_path : string)
    (logger : TensorBoardLogger) (model : nn_Module)
    (evaluate_device : string) (configs : Cfg.Configs)
    (callbacks : list Callback) :
  read_yaml config_yaml = Ok configs ->
  Cfg.evaluate_step_frequency (Cfg.train configs) <> 0 ->
  get_violin_piano_callbacks config_yaml dataset_dir workspace
    checkpoints_dir statistics_path logger model evaluate_device
    = Ok callbacks ->
  exists save_checkpoints_callback evaluate_test_callback,
    callbacks = [SaveCheckpoints save_checkpoints_callback;
                 Evaluation evaluate_test_callback] /\
    forall trainer : Trainer,
      let r :=
        EvaluationCallback.on_batch_end evaluate_test_callback trainer in
      (trace r <> [] <->
       rank = 0 /\
       (Cfg.evaluate_step_frequency (Cfg.train configs)
        | global_step trainer)) /\
      (trace r <> [] ->
       hd_error (trace r)
       = Some (Listdir
                 (os_path_join
                    (os_path_join workspace
                       (Cfg.evaluation_audios_dir
                          (Cfg.test (Cfg.evaluate configs))))
                    "mixture"))).
Proof.
  intros Hread Hfreq Hcall.
  destruct (get_violin_piano_callbacks_ok _ _ _ _ _ _ _ _ callbacks Hcall)
    as (configs' & n & target & Hread' & _ & _ & ->).
  rewrite Hread in Hread'. injection Hread' as <-.
  eexists _, _. split; [reflexivity|].
  intros trainer r.
  set (callback := evaluate_test_callback_of configs workspace
                     statistics_path logger model evaluate_device n target)
    in *.
  assert (Hmade : trace r <> [] ->
                  rank = 0 /\
                  (Cfg.evaluate_step_frequency (Cfg.train configs)
                   | global_step trainer) /\
                  r = EvaluationCallback.evaluate callback
                        (global_step trainer)).
  { intros Hcalls.
    destruct (on_batch_end_calls_inv callback trainer Hcalls)
      as (Hrank & _ & Hdiv & Hrun).
    repeat split; assumption. }
  pose proof (evaluate_lists_mixtures callback (global_step trainer))
    as Hlists.
  unfold performs_evaluation in Hlists.
  split; [split|].
  - intros Hcalls. destruct (Hmade Hcalls) as (Hrank & Hdiv & _).
    split; assumption.
  - intros [Hrank Hdiv]. unfold r.
    rewrite on_batch_end_at_multiple by assumption.
    intros Hnil. rewrite Hnil in Hlists. destruct Hlists.
  - intros Hcalls. destruct (Hmade Hcalls) as (_ & _ & ->).
    rewrite evaluate_cases.
    destruct (os_listdir _); [|reflexivity]. cbv zeta.
    destruct (sorted _); [reflexivity|].
    destruct (outcome _); [|reflexivity].
    destruct (statistics_container_append _ _ _ _); reflexivity.
Qed.

End Workspace.

(* ===================================================================== *)
(** * Further concrete runs *)
(* ===================================================================== *)

Module MoreRuns.
Import EvaluationCallback.

Example missing_clean_file_stops_at_b :
  on_batch_end (E := Variants.no_clean_b) Demo.callback (Demo.at_step 0)
  = ([Listdir "ws/evaluation_audios/vp/mixture";
      LoggingInfo (LogStep 0); LoggingInfo (LogTotalPieces 2); Clock;
      Load "ws/evaluation_audios/vp/mixture/a.wav" 44100 true;
      Load "ws/evaluation_audios/vp/violin/a.wav" 44100 true;
      Separate (separator Demo.callback)
        [("waveform",
          {| shape := [1%nat; 1%nat];
             buffer := [Demo.float_of_nat 37] |})];
      Print "a.wav" (Demo.float_of_nat 36);
      Load "ws/evaluation_audios/vp/mixture/b.wav" 44100 true;
      Load "ws/evaluation_audios/vp/violin/b.wav" 44100 true],
     Raise (LibraryError "FileNotFoundError")).
Proof. reflexivity. Qed.

Example evaluations_in_five_steps :
  evaluations_before (E := Demo.rank_zero) (Variants.callback_every 2) 5
  = 3%nat.
Proof. reflexivity. Qed.

Lemma zero_frequency_never_evaluates_witness :
  evaluate_step_frequency (Variants.callback_every 0) = 0 /\
  outcome (on_batch_end (E := Demo.rank_zero) (Variants.callback_every 0)
             (Demo.at_step 2000))
  = Raise ZeroDivisionError.
Proof.
  split; [reflexivity|].
  destruct (zero_frequency_never_evaluates (E := Demo.rank_zero)
              (Variants.callback_every 0) (Demo.at_step 2000) eq_refl)
    as (_ & Hraises & _).
  exact (Hraises eq_refl).
Defined.

Lemma record_only_after_all_pieces_witness :
  exists listing,
    os_listdir (Externals := Demo.rank_zero)
      (mixture_audios_dir Demo.callback) = Ok listing /\
    listing <> [].
Proof.
  assert (Hin :
    In (Append (statistics_container Demo.callback) 2000
          [("pesq", Demo.float_of_nat 36)] "test")
      (trace (on_batch_end (E := Demo.rank_zero) Demo.callback
                (Demo.at_step 2000)))).
  { vm_compute. repeat (try (left; reflexivity); right). }
  destruct (record_only_after_all_pieces (E := Demo.rank_zero)
              Demo.callback (Demo.at_step 2000) _ _ _ _ Hin)
    as (listing & sdrs & Hlisting & Hnonempty & _).
  exists listing. split; assumption.
Defined.

Lemma dump_only_after_append_witness :
  outcome (on_batch_end (E := Variants.disk_full) Demo.callback
             (Demo.at_step 2000))
  = Raise (LibraryError "OSError").
Proof.
  assert (Hin :
    In (Dump (statistics_container Demo.callback))
      (trace (on_batch_end (E := Variants.disk_full) Demo.callback
                (Demo.at_step 2000)))).
  { vm_compute. repeat (try (left; reflexivity); right). }
  destruct (dump_only_after_append (E := Variants.disk_full)
              Demo.callback (Demo.at_step 2000) _ Hin)
    as (before & sdrs & _ & _ & _ & _ & Houtcome).
  exact Houtcome.
Defined.

Lemma listdir_exception_propagates_witness :
  os_listdir (Externals := Variants.no_directory)
    (mixture_audios_dir Demo.callback)
  = Raise (LibraryError "FileNotFoundError") /\
  on_batch_end (E := Variants.no_directory) Demo.callback (Demo.at_step 0)
  = ([Listdir "ws/evaluation_audios/vp/mixture"],
     Raise (LibraryError "FileNotFoundError")).
Proof.
  split; [reflexivity|].
  apply (listdir_exception_propagates (E := Variants.no_directory)
           Demo.callback (Demo.at_step 0));
    [reflexivity | discriminate | exists 0; reflexivity | reflexivity].
Defined.

Lemma first_failing_piece_stops_evaluation_witness :
  piece_raises (E := Variants.no_clean_b) Demo.callback "b.wav"
    (LibraryError "FileNotFoundError") /\
  outcome (on_batch_end (E := Variants.no_clean_b) Demo.callback
             (Demo.at_step 2000))
  = Raise (LibraryError "FileNotFoundError").
Proof.
  split; [reflexivity|].
  apply (first_failing_piece_stops_evaluation (E := Variants.no_clean_b)
           Demo.callback (Demo.at_step 2000) Demo.listing
           ["a.wav"] [] [Demo.float_of_nat 36] "b.wav"
           (LibraryError "FileNotFoundError"));
    [reflexivity | discriminate | exists 2; reflexivity | reflexivity
    | reflexivity | | reflexivity].
  constructor; [|constructor].
  eexists _, _, _. repeat split; reflexivity.
Defined.

Lemma evaluations_in_first_steps_witness :
  0 < evaluate_step_frequency Demo.callback /\
  Z.of_nat (evaluations_before (E := Demo.rank_zero) Demo.callback 2001)
  = (Z.of_nat 2001 + evaluate_step_frequency Demo.callback - 1)
      / evaluate_step_frequency Demo.callback.
Proof.
  split; [reflexivity|].
  apply (evaluations_in_first_steps (E := Demo.rank_zero) Demo.callback
           2001); reflexivity.
Defined.

Lemma get_violin_piano_callbacks_outcomes_witness :
  read_yaml (Externals := Demo.rank_zero) "two_targets.yaml"
    = Ok Demo.two_targets /\
  match Demo.get_callbacks "two_targets.yaml" with
  | Ok callbacks => False
  | Raise exn =>
      exn = OverflowError \/ exn = ValueError \/
      (exn = AssertionError None /\
       List.length (Cfg.target_source_types (Cfg.train Demo.two_targets))
       <> 1%nat)
  end.
Proof.
  split; [reflexivity|].
  exact (get_violin_piano_callbacks_outcomes (E := Demo.rank_zero)
           "two_targets.yaml" "datasets" "ws" "ws/checkpoints"
           "ws/statistics.pkl" Demo.logger Demo.model "cuda"
           Demo.two_targets eq_refl).
Defined.

Lemma segment_length_checked_before_targets_witness :
  Variants.get_callbacks
    (Variants.with_segment_seconds (PyFloat S754_nan)) "ws"
  = Raise ValueError.
Proof.
  destruct (segment_length_checked_before_targets
              (E := with_configs Demo.rank_zero
                      (Variants.with_segment_seconds (PyFloat S754_nan)))
              "violin_piano.yaml" "datasets" "ws" "ws/checkpoints"
              "ws/statistics.pkl" Demo.logger Demo.model "cuda"
              (Variants.with_segment_seconds (PyFloat S754_nan))
              S754_nan eq_refl eq_refl (or_introl eq_refl))
    as (_ & Hnan & _).
  exact (Hnan eq_refl).
Defined.

(** C8, as worded, fails: with two target source types and a segment
    length that is not a number the call raises [ValueError], from the
    conversion on the line before the assertion. *)
Lemma conversion_raises_before_assertion :
  ~ asserts_one_target_source_type
      (E := with_configs Demo.rank_zero Variants.nan_seconds_two_targets)
      "violin_piano.yaml" "datasets" "ws" "ws/checkpoints"
      "ws/statistics.pkl" Demo.logger Demo.model "cuda".
Proof.
  intros Hasserts.
  destruct (Hasserts Variants.nan_seconds_two_targets eq_refl)
    as [msg Hraises].
  - discriminate.
  - vm_compute in Hraises. discriminate Hraises.
Qed.

Example nan_seconds_two_targets_raises_value_error :
  Variants.get_callbacks Variants.nan_seconds_two_targets "ws"
  = Raise ValueError.
Proof. reflexivity. Qed.


Lemma calls_per_listed_file_witness :
  let calls :=
    trace (on_batch_end (E := Demo.rank_zero) Demo.callback
             (Demo.at_step 2000)) in
  calls <> [] /\
  List.length (separations calls) = List.length Demo.listing.
Proof.
  intros calls.
  assert (Hcalls : calls <> []) by (vm_compute; discriminate).
  split; [exact Hcalls|].
  apply (calls_per_listed_file (E := Demo.rank_zero) Demo.callback
           (Demo.at_step 2000) calls Demo.listing);
    [reflexivity | reflexivity | exact Hcalls].
Defined.


Lemma absolute_evaluation_dir_ignores_workspace_witness :
  startswith_sep "/data/vp" = true /\
  Variants.get_callbacks (Variants.with_evaluation_audios_dir "/data/vp")
    "ws" =
  Variants.get_callbacks (Variants.with_evaluation_audios_dir "/data/vp")
    "elsewhere".
Proof.
  split; [reflexivity|].
  apply (absolute_evaluation_dir_ignores_workspace
           (E := with_configs Demo.rank_zero
                   (Variants.with_evaluation_audios_dir "/data/vp"))
           "violin_piano.yaml" "datasets" "ws" "elsewhere"
           "ws/checkpoints" "ws/statistics.pkl" Demo.logger Demo.model
           "cuda" (Variants.with_evaluation_audios_dir "/data/vp"));
    reflexivity.
Defined.

Lemma returned_callback_follows_configuration_witness :
  Demo.get_callbacks "violin_piano.yaml" = Ok demo_returned_callbacks /\
  exists save_checkpoints_callback evaluate_test_callback,
    demo_returned_callbacks = [SaveCheckpoints save_checkpoints_callback;
                               Evaluation evaluate_test_callback] /\
    (trace (on_batch_end (E := Demo.rank_zero) evaluate_test_callback
              (Demo.at_step 3000)) <> [] <->
     rank (Externals := Demo.rank_zero) = 0 /\ (1000 | 3000)).
Proof.
  split; [reflexivity|].
  destruct (returned_callback_follows_configuration (E := Demo.rank_zero)
              "violin_piano.yaml" "datasets" "ws" "ws/checkpoints"
              "ws/statistics.pkl" Demo.logger Demo.model "cuda"
              Demo.configs demo_returned_callbacks)
    as (save & callback & Hcallbacks & Hruns);
    [reflexivity | discriminate | reflexivity |].
  exists save, callback. split; [exact Hcallbacks|].
  exact (proj1 (Hruns (Demo.at_step 3000))).
Defined.

End MoreRuns.
